(** * Patient bed simulator (patientbedsimulation.cpp): a shallow embedding

    The program simulates one hospital bed.  After connecting to an MQTT
    broker it loops forever: it draws a heart rate and an SpO2 value, updates
    the bed inclination from the local wall-clock time (meal windows) and
    from randomized dwell timers, serializes a telemetry record to JSON and
    publishes it, then sleeps.

    Everything outside the program (clocks, the random engine, the MQTT
    client, number formatting of the JSON library) is an explicit [World];
    the program itself is written in a small state-and-exception monad over
    a [Machine] that records what the program has consumed and emitted. *)

From Stdlib Require Import ZArith List String Ascii Bool Lia Floats.
Import ListNotations.
Local Open Scope string_scope.
Local Open Scope Z_scope.

(** ** Configuration (lines 38-64 of the source) *)

Definition SERVER_ADDRESS : string :=
  "ssl://a22bv8r2s2kek2-ats.iot.eu-north-1.amazonaws.com:8883".
Definition CLIENT_ID_PREFIX : string := "PatientBed".
Definition TOPIC_PREFIX : string := "PatientBed/".
Definition QOS : Z := 1.

Definition CA_CERT_PATH : string := "./certs/AmazonRootCA1.pem".
Definition CLIENT_CERT_PATH_PREFIX : string := "./certs/device_".
Definition CLIENT_KEY_PATH_PREFIX : string := "./certs/device_".

Definition DATA_SEND_INTERVAL_SECONDS : Z := 5.

Definition MEAL_INCLINATION_DEGREES : float := 60%float.
Definition MEAL_INCLINATION_DURATION_MINUTES : Z := 30.
Definition MINOR_INCLINATION_DEGREES : float := 30%float.
Definition MINOR_INCLINATION_DURATION_BASE_MINUTES : Z := 10.
Definition MINOR_INCLINATION_DURATION_RAND_ADD_MINUTES : Z := 5.
Definition FLAT_STATE_BASE_DURATION_MINUTES : Z := 45.
Definition FLAT_STATE_RAND_ADD_MINUTES : Z := 15.
(** The literal 0.20 denotes the binary64 value nearest to it, in C++ as
    here. *)
#[local] Set Warnings "-inexact-float".
Definition PROBABILITY_MINOR_INCLINE : float := 0.2%float.

(** Meal times, local system time: (hour, minute). *)
Definition meal_start_times : list (Z * Z) := [(8, 0); (12, 0); (18, 0)].

(** [enum class BedInclinationState]. *)
Inductive BedInclinationState : Type :=
| FLAT
| INCLINED.

Definition BedInclinationState_eqb (a b : BedInclinationState) : bool :=
  match a, b with
  | FLAT, FLAT | INCLINED, INCLINED => true
  | _, _ => false
  end.

(** ** The world outside the program *)

(** [struct tm] of the C library, the broken-down local time.  The program
    reads [tm_hour] and [tm_min]; [strftime] reads the rest. *)
Record tm : Type := {
  tm_sec : Z;
  tm_min : Z;
  tm_hour : Z;
  tm_mday : Z;
  tm_mon : Z;
  tm_year : Z;
  tm_wday : Z;
  tm_yday : Z;
  tm_isdst : Z
}.

(** The random engine [std::mt19937] together with the standard
    distributions applied to it.  A distribution takes the engine state and
    returns a value and the advanced state.  The one law is the contract of
    [std::uniform_int_distribution<>(a, b)]: its values lie in the closed
    range [a, b]. *)
Class RandomEngine (G : Type) : Type := {
  uniform_int_distribution : Z -> Z -> G -> Z * G;
  uniform_real_distribution : float -> float -> G -> float * G;
  uniform_int_distribution_range :
    forall a b g, a <= b -> a <= fst (uniform_int_distribution a b g) <= b
}.

(** Exceptions the program can meet: [mqtt::exception] with its [what()]
    text, and the JSON library's [type_error] with its numeric id. *)
Inductive exception : Type :=
| mqtt_exception (what : string)
| json_type_error (id : Z).

(** What the environment answers.  Clocks and the client are indexed by the
    number of calls made so far. *)
Record World (G : Type) : Type := {
  (** [std::mt19937 gen(rd())]: the engine as seeded by the random device *)
  seeded_engine : G;
  (** k-th [system_clock::now()] followed by [localtime] *)
  system_clock_local : nat -> tm;
  (** [strftime] with the format "%Y-%m-%dT%H:%M:%S%z" *)
  strftime_iso8601 : tm -> string;
  (** k-th [steady_clock::now()], in nanoseconds *)
  steady_clock : nat -> Z;
  (** [client.connect(conn_opts)->wait()]: [Some what] when it throws *)
  connect_outcome : option string;
  (** k-th [client.is_connected()] *)
  is_connected : nat -> bool;
  (** k-th [client.publish(pubmsg)->wait()]: [Some what] when it throws *)
  publish_outcome : nat -> option string;
  (** the JSON library's decimal rendering of a finite double
      ([nlohmann::detail::to_chars]) *)
  json_to_chars : float -> string
}.

Arguments seeded_engine {G} _.
Arguments system_clock_local {G} _ _.
Arguments strftime_iso8601 {G} _ _.
Arguments steady_clock {G} _ _.
Arguments connect_outcome {G} _.
Arguments is_connected {G} _ _.
Arguments publish_outcome {G} _ _.
Arguments json_to_chars {G} _ _.

(** What the program emits. *)
Inductive Output : Type :=
| Cout (line : string)
| Cerr (line : string)
| MqttConnect (server client_id : string)
| MqttPublish (topic payload : string) (qos : Z)
| MqttDisconnect
| SleepFor (seconds : Z).

(** The state threaded through the program: the engine, how many times each
    oracle was consulted, and the outputs so far (latest last). *)
Record Machine (G : Type) : Type := {
  gen : G;
  system_clock_reads : nat;
  steady_clock_reads : nat;
  is_connected_calls : nat;
  publish_calls : nat;
  outputs : list Output
}.

Arguments gen {G} _.
Arguments system_clock_reads {G} _.
Arguments steady_clock_reads {G} _.
Arguments is_connected_calls {G} _.
Arguments publish_calls {G} _.
Arguments outputs {G} _.

(** ** The state-and-exception monad *)

Inductive Result (A : Type) : Type :=
| Ok (a : A)
| Throw (e : exception).

Arguments Ok {A} _.
Arguments Throw {A} _.

Definition M (G A : Type) : Type := Machine G -> Result A * Machine G.

Definition ret {G A} (a : A) : M G A := fun m => (Ok a, m).

Definition bind {G A B} (c : M G A) (k : A -> M G B) : M G B :=
  fun m =>
    match c m with
    | (Ok a, m') => k a m'
    | (Throw e, m') => (Throw e, m')
    end.

Definition throw {G A} (e : exception) : M G A := fun m => (Throw e, m).

(** [try { body } catch (const mqtt::exception& exc) { handler }]: any other
    exception propagates. *)
Definition try_catch_mqtt {G A} (body : M G A) (handler : string -> M G A)
  : M G A :=
  fun m =>
    match body m with
    | (Throw (mqtt_exception what), m') => handler what m'
    | r => r
    end.

Notation "x <- c ;; k" := (bind c (fun x => k))
  (at level 61, c at next level, right associativity).
Notation "c ;;; k" := (bind c (fun _ => k))
  (at level 61, right associativity).

(** [std::chrono::steady_clock] counts nanoseconds. *)
Definition steady_ticks_per_second : Z := 1000000000.

(** [duration_cast<seconds>(d).count()]: truncation toward zero. *)
Definition duration_cast_seconds (d : Z) : Z := Z.quot d steady_ticks_per_second.

(** ** The program *)

(** The simulation variables of [main] (lines 214-218). *)
Record Sim : Type := {
  currentInclinationState : BedInclinationState;
  currentInclination : float;
  lastNonMealStateChangeTime : Z;
  currentNonMealStateDurationSeconds : Z;
  inMealInclineOverride : bool
}.

(** [class Telemetry] (lines 103-140). *)
Record Telemetry : Type := {
  deviceId : string;
  timestamp : string;
  heartRate : float;
  spo2 : float;
  inclination : float;
  bedState : string
}.

(** ** The JSON library as the program uses it

    [using json = nlohmann::json] is the library's default [basic_json]: an
    object is a [std::map<std::string, json>], so its members are kept, and
    iterated, in increasing key order (byte-wise lexicographic), whatever the
    order of insertion.  Only the kinds of value the program builds are
    modelled.  The library is not part of the repository; the definitions
    below follow its documented behaviour. *)

#[local] Set Warnings "-register-all".
Inductive json : Type :=
| json_null
| json_object (members : list (string * json))
| json_string (s : string)
| json_number_float (x : float).

(** [std::map::operator[]] followed by assignment, on the sorted member
    list. *)
Fixpoint map_insert_or_assign (key : string) (v : json)
    (members : list (string * json)) : list (string * json) :=
  match members with
  | [] => [(key, v)]
  | (k, x) :: rest =>
      match String.compare key k with
      | Lt => (key, v) :: (k, x) :: rest
      | Eq => (k, v) :: rest
      | Gt => (k, x) :: map_insert_or_assign key v rest
      end
  end.

(** [j[key] = v]: a null value silently becomes an object; anything that is
    not an object raises [type_error] 305. *)
Definition json_index_assign (key : string) (v : json) (j : json)
  : Result json :=
  match j with
  | json_null => Ok (json_object [(key, v)])
  | json_object members => Ok (json_object (map_insert_or_assign key v members))
  | _ => Throw (json_type_error 305)
  end.

Definition LF : string := String "010"%char EmptyString.
Definition DQUOTE : string := String "034"%char EmptyString.

(** [std::string(n, ' ')]. *)
Fixpoint indent_string (n : nat) : string :=
  match n with
  | O => ""
  | S k => String " "%char (indent_string k)
  end.

Definition hex_digit (n : N) : string :=
  String.substring (N.to_nat n) 1 "0123456789abcdef".

(** The escape of a one-byte code point in [serializer::dump_escaped] with
    [ensure_ascii = false]. *)
Definition escape_ascii (b : ascii) : string :=
  let n := N_of_ascii b in
  if (n =? 8)%N then "\b"
  else if (n =? 9)%N then "\t"
  else if (n =? 10)%N then "\n"
  else if (n =? 12)%N then "\f"
  else if (n =? 13)%N then "\r"
  else if (n =? 34)%N then "\" ++ DQUOTE
  else if (n =? 92)%N then "\\"
  else if (n <=? 31)%N then "\u00" ++ hex_digit (n / 16) ++ hex_digit (n mod 16)
  else String b EmptyString.

Definition is_continuation (b : ascii) : bool :=
  let n := N_of_ascii b in (128 <=? n)%N && (n <=? 191)%N.

(** The range allowed for the second byte of a three- or four-byte UTF-8
    sequence, given the first byte. *)
Definition second_byte_ok (b0 b1 : ascii) : bool :=
  let n0 := N_of_ascii b0 in
  let n1 := N_of_ascii b1 in
  if (n0 =? 224)%N then (160 <=? n1)%N && (n1 <=? 191)%N
  else if (n0 =? 237)%N then (128 <=? n1)%N && (n1 <=? 159)%N
  else if (n0 =? 240)%N then (144 <=? n1)%N && (n1 <=? 191)%N
  else if (n0 =? 244)%N then (128 <=? n1)%N && (n1 <=? 143)%N
  else is_continuation b1.

(** [serializer::dump_escaped] with [ensure_ascii = false] and the strict
    error handler: the bytes are decoded as UTF-8; control characters, the
    quote and the backslash are escaped, everything else is copied; a byte
    sequence that is not well-formed UTF-8 raises [type_error] 316 (here
    [None]). *)
Fixpoint dump_escaped (s : string) : option string :=
  match s with
  | EmptyString => Some ""
  | String b0 rest =>
      let n0 := N_of_ascii b0 in
      if (n0 <? 128)%N then
        option_map (String.append (escape_ascii b0)) (dump_escaped rest)
      else if (194 <=? n0)%N && (n0 <=? 223)%N then
        match rest with
        | String b1 rest1 =>
            if is_continuation b1 then
              option_map (fun e => String b0 (String b1 e)) (dump_escaped rest1)
            else None
        | _ => None
        end
      else if (224 <=? n0)%N && (n0 <=? 239)%N then
        match rest with
        | String b1 (String b2 rest2) =>
            if second_byte_ok b0 b1 && is_continuation b2 then
              option_map (fun e => String b0 (String b1 (String b2 e)))
                         (dump_escaped rest2)
            else None
        | _ => None
        end
      else if (240 <=? n0)%N && (n0 <=? 244)%N then
        match rest with
        | String b1 (String b2 (String b3 rest3)) =>
            if second_byte_ok b0 b1 && is_continuation b2 && is_continuation b3
            then
              option_map
                (fun e => String b0 (String b1 (String b2 (String b3 e))))
                (dump_escaped rest3)
            else None
        | _ => None
        end
      else None
  end.

Definition dump_quoted (s : string) : Result string :=
  match dump_escaped s with
  | Some e => Ok (DQUOTE ++ e ++ DQUOTE)
  | None => Throw (json_type_error 316)
  end.

Section Dump.

(** [nlohmann::detail::to_chars] on a finite double. *)
Variable to_chars : float -> string.

(** [serializer::dump_float]: a value that is not finite is written as
    null. *)
Definition dump_float (x : float) : string :=
  if PrimFloat.is_finite x then to_chars x else "null".

(** [serializer::dump] with [pretty_print = true]: an object with members
    opens with a brace and a line feed, writes each member on a line of its
    own at [current_indent + indent_step] spaces as ["key": value], the
    lines separated by a comma, and closes with a brace at
    [current_indent] spaces. *)
Fixpoint dump_pretty (indent_step current_indent : nat) (val : json)
  : Result string :=
  match val with
  | json_null => Ok "null"
  | json_string s => dump_quoted s
  | json_number_float x => Ok (dump_float x)
  | json_object [] => Ok "{}"
  | json_object members =>
      let new_indent := (current_indent + indent_step)%nat in
      let dump_members :=
        fix dump_members (ms : list (string * json)) : Result string :=
          match ms with
          | [] => Ok ""
          | (k, v) :: rest =>
              match dump_quoted k with
              | Throw e => Throw e
              | Ok qk =>
                  match dump_pretty indent_step new_indent v with
                  | Throw e => Throw e
                  | Ok dv =>
                      match rest with
                      | [] =>
                          Ok (indent_string new_indent ++ qk ++ ": " ++ dv
                                ++ LF)
                      | _ =>
                          match dump_members rest with
                          | Throw e => Throw e
                          | Ok more =>
                              Ok (indent_string new_indent ++ qk ++ ": "
                                    ++ dv ++ "," ++ LF ++ more)
                          end
                      end
                  end
              end
          end in
      match dump_members members with
      | Throw e => Throw e
      | Ok body =>
          Ok ("{" ++ LF ++ body ++ indent_string current_indent ++ "}")
      end
  end.

(** [j.dump(indent)] for a non-negative [indent]. *)
Definition dump (indent : nat) (j : json) : Result string :=
  dump_pretty indent 0 j.

(** [Telemetry::toJson] (lines 130-139). *)
Definition toJson (t : Telemetry) : Result string :=
  match json_index_assign "deviceId" (json_string (deviceId t)) json_null with
  | Throw e => Throw e
  | Ok j1 =>
  match json_index_assign "timestamp" (json_string (timestamp t)) j1 with
  | Throw e => Throw e
  | Ok j2 =>
  match json_index_assign "heartRate" (json_number_float (heartRate t)) j2 with
  | Throw e => Throw e
  | Ok j3 =>
  match json_index_assign "spo2" (json_number_float (spo2 t)) j3 with
  | Throw e => Throw e
  | Ok j4 =>
  match json_index_assign "inclination"
          (json_number_float (inclination t)) j4 with
  | Throw e => Throw e
  | Ok j5 =>
  match json_index_assign "bedState" (json_string (bedState t)) j5 with
  | Throw e => Throw e
  | Ok j6 => dump 4 j6
  end end end end end end.

End Dump.

(** The meal-window test of lines 232-246: the loop over [meal_start_times]
    with its early [break]. *)
Fixpoint meal_slot_scan (current_hour_local current_minute_local : Z)
    (meals : list (Z * Z)) : bool :=
  match meals with
  | [] => false
  | (meal_start_hour, meal_start_minute) :: rest =>
      let current_total_minutes_from_midnight :=
        current_hour_local * 60 + current_minute_local in
      let meal_start_total_minutes_from_midnight :=
        meal_start_hour * 60 + meal_start_minute in
      let meal_end_total_minutes_from_midnight :=
        meal_start_total_minutes_from_midnight
        + MEAL_INCLINATION_DURATION_MINUTES in
      if (current_total_minutes_from_midnight
            >=? meal_start_total_minutes_from_midnight)
         && (current_total_minutes_from_midnight
               <? meal_end_total_minutes_from_midnight)
      then true
      else meal_slot_scan current_hour_local current_minute_local rest
  end.

Definition is_currently_meal_time_slot (t : tm) : bool :=
  meal_slot_scan (tm_hour t) (tm_min t) meal_start_times.

Section Program.

Context {G : Type} {RE : RandomEngine G}.
(** The environment of one run. *)
Variable w : World G.

Local Abbreviation M := (M G).

(** *** Primitive operations on the world *)

Definition system_clock_localtime : M tm :=
  fun m =>
    (Ok (system_clock_local w (system_clock_reads m)),
     {| gen := gen m;
        system_clock_reads := S (system_clock_reads m);
        steady_clock_reads := steady_clock_reads m;
        is_connected_calls := is_connected_calls m;
        publish_calls := publish_calls m;
        outputs := outputs m |}).

Definition steady_clock_now : M Z :=
  fun m =>
    (Ok (steady_clock w (steady_clock_reads m)),
     {| gen := gen m;
        system_clock_reads := system_clock_reads m;
        steady_clock_reads := S (steady_clock_reads m);
        is_connected_calls := is_connected_calls m;
        publish_calls := publish_calls m;
        outputs := outputs m |}).

Definition emit (o : Output) : M unit :=
  fun m =>
    (Ok tt,
     {| gen := gen m;
        system_clock_reads := system_clock_reads m;
        steady_clock_reads := steady_clock_reads m;
        is_connected_calls := is_connected_calls m;
        publish_calls := publish_calls m;
        outputs := (outputs m ++ [o])%list |}).

Definition cout (line : string) : M unit := emit (Cout line).
Definition cerr (line : string) : M unit := emit (Cerr line).

(** Applying a distribution to [gen]. *)
Definition draw {A} (dist : G -> A * G) : M A :=
  fun m =>
    (Ok (fst (dist (gen m))),
     {| gen := snd (dist (gen m));
        system_clock_reads := system_clock_reads m;
        steady_clock_reads := steady_clock_reads m;
        is_connected_calls := is_connected_calls m;
        publish_calls := publish_calls m;
        outputs := outputs m |}).

Definition client_connect (client_id : string) : M unit :=
  emit (MqttConnect SERVER_ADDRESS client_id) ;;;
  match connect_outcome w with
  | Some what => throw (mqtt_exception what)
  | None => ret tt
  end.

Definition client_is_connected : M bool :=
  fun m =>
    (Ok (is_connected w (is_connected_calls m)),
     {| gen := gen m;
        system_clock_reads := system_clock_reads m;
        steady_clock_reads := steady_clock_reads m;
        is_connected_calls := S (is_connected_calls m);
        publish_calls := publish_calls m;
        outputs := outputs m |}).

Definition client_publish (topic payload : string) (qos : Z) : M unit :=
  fun m =>
    let m' :=
      {| gen := gen m;
         system_clock_reads := system_clock_reads m;
         steady_clock_reads := steady_clock_reads m;
         is_connected_calls := is_connected_calls m;
         publish_calls := S (publish_calls m);
         outputs := (outputs m ++ [MqttPublish topic payload qos])%list |} in
    match publish_outcome w (publish_calls m) with
    | Some what => (Throw (mqtt_exception what), m')
    | None => (Ok tt, m')
    end.

Definition sleep_for (seconds : Z) : M unit := emit (SleepFor seconds).

(** *** The distributions of lines 208-212 *)

Definition heart_rate_dist : G -> float * G :=
  uniform_real_distribution 55%float 85%float.
Definition spo2_dist : G -> float * G :=
  uniform_real_distribution 95%float 99.5%float.
Definition probability_dist : G -> float * G :=
  uniform_real_distribution 0%float 1%float.
Definition minor_incline_duration_rand_addon : G -> Z * G :=
  uniform_int_distribution 0 (MINOR_INCLINATION_DURATION_RAND_ADD_MINUTES - 1).
Definition flat_duration_rand_addon : G -> Z * G :=
  uniform_int_distribution 0 (FLAT_STATE_RAND_ADD_MINUTES - 1).

(** *** [getCurrentTimestampLocal] (lines 79-98) *)

Definition getCurrentTimestampLocal : M string :=
  tm_local <- system_clock_localtime ;;
  ret (strftime_iso8601 w tm_local).

(** *** The inclination logic of one loop iteration (lines 225-289)

    [MEAL_INCLINATION_DEGREES] and [currentInclination] (30.0 at line 274)
    are streamed to [std::cout] in the default format, which prints
    "60" and "30". *)
Definition inclination_logic (deviceInstanceNumStr : string) (s : Sim)
  : M Sim :=
  current_local_tm_struct <- system_clock_localtime ;;
  let is_meal := is_currently_meal_time_slot current_local_tm_struct in
  now_steady <- steady_clock_now ;;
  if is_meal then
    (if negb (inMealInclineOverride s) then
       ts <- getCurrentTimestampLocal ;;
       cout ("[" ++ ts ++ "] Bed " ++ deviceInstanceNumStr
               ++ " INCLINED for meal to " ++ "60" ++ " degrees.")
     else ret tt) ;;;
    ret {| currentInclinationState := INCLINED;
           currentInclination := MEAL_INCLINATION_DEGREES;
           lastNonMealStateChangeTime := lastNonMealStateChangeTime s;
           currentNonMealStateDurationSeconds :=
             currentNonMealStateDurationSeconds s;
           inMealInclineOverride := true |}
  else if inMealInclineOverride s then
    addon <- draw flat_duration_rand_addon ;;
    ts <- getCurrentTimestampLocal ;;
    cout ("[" ++ ts ++ "] Bed " ++ deviceInstanceNumStr
            ++ " set to FLAT after meal.") ;;;
    ret {| currentInclinationState := FLAT;
           currentInclination := 0%float;
           lastNonMealStateChangeTime := now_steady;
           currentNonMealStateDurationSeconds :=
             (FLAT_STATE_BASE_DURATION_MINUTES + addon) * 60;
           inMealInclineOverride := false |}
  else
    let elapsedSinceLastNonMealChange_seconds :=
      duration_cast_seconds (now_steady - lastNonMealStateChangeTime s) in
    if elapsedSinceLastNonMealChange_seconds
         >=? currentNonMealStateDurationSeconds s
    then
      if BedInclinationState_eqb (currentInclinationState s) FLAT then
          p <- draw probability_dist ;;
          if PrimFloat.ltb p PROBABILITY_MINOR_INCLINE then
            addon <- draw minor_incline_duration_rand_addon ;;
            ts <- getCurrentTimestampLocal ;;
            cout ("[" ++ ts ++ "] Bed " ++ deviceInstanceNumStr
                    ++ " INCLINED (minor) to " ++ "30" ++ " degrees.") ;;;
            ret {| currentInclinationState := INCLINED;
                   currentInclination := MINOR_INCLINATION_DEGREES;
                   lastNonMealStateChangeTime := now_steady;
                   currentNonMealStateDurationSeconds :=
                     (MINOR_INCLINATION_DURATION_BASE_MINUTES + addon) * 60;
                   inMealInclineOverride := inMealInclineOverride s |}
          else
            addon <- draw flat_duration_rand_addon ;;
            ret {| currentInclinationState := FLAT;
                   currentInclination := 0%float;
                   lastNonMealStateChangeTime := now_steady;
                   currentNonMealStateDurationSeconds :=
                     (FLAT_STATE_BASE_DURATION_MINUTES + addon) * 60;
                   inMealInclineOverride := inMealInclineOverride s |}
      else
          addon <- draw flat_duration_rand_addon ;;
          ts <- getCurrentTimestampLocal ;;
          cout ("[" ++ ts ++ "] Bed " ++ deviceInstanceNumStr
                  ++ " set to FLAT after minor incline.") ;;;
          ret {| currentInclinationState := FLAT;
                 currentInclination := 0%float;
                 lastNonMealStateChangeTime := now_steady;
                 currentNonMealStateDurationSeconds :=
                   (FLAT_STATE_BASE_DURATION_MINUTES + addon) * 60;
                 inMealInclineOverride := inMealInclineOverride s |}
    else ret s.

(** *** [Telemetry::Telemetry] (lines 120-124) *)
Definition Telemetry_new (id : string) (hr oxygen incl : float)
    (state : BedInclinationState) : M Telemetry :=
  ts <- getCurrentTimestampLocal ;;
  ret {| deviceId := id;
         timestamp := ts;
         heartRate := hr;
         spo2 := oxygen;
         inclination := incl;
         bedState := if BedInclinationState_eqb state FLAT
                     then "FLAT" else "INCLINED" |}.

(** Lifting a computation of the JSON library into the program. *)
Definition lift_result {A} (r : Result A) : M A := fun m => (r, m).

(** *** One iteration of [while (true)] (lines 221-307) *)

(** Lines 221-292: the draws, the inclination logic and the construction
    of the telemetry record. *)
Definition build_sample (deviceInstanceNumStr clientId : string) (s : Sim)
  : M (Sim * Telemetry) :=
  hr <- draw heart_rate_dist ;;
  spo2 <- draw spo2_dist ;;
  s' <- inclination_logic deviceInstanceNumStr s ;;
  telemetryData <- Telemetry_new clientId hr spo2 (currentInclination s')
                     (currentInclinationState s') ;;
  ret (s', telemetryData).

(** Lines 298-305: the publish attempt inside its [try] block. *)
Definition publish_attempt (topic payload : string) : M unit :=
  try_catch_mqtt
    (connected <- client_is_connected ;;
     (if negb connected then
        ts <- getCurrentTimestampLocal ;;
        cerr ("[" ++ ts
                ++ "] Client not connected. Retrying connection by Paho...")
      else ret tt) ;;;
     client_publish topic payload QOS)
    (fun what =>
       ts <- getCurrentTimestampLocal ;;
       cerr ("[" ++ ts ++ "] Error publishing: " ++ what)).

Definition loop_body (deviceInstanceNumStr clientId topic : string)
    (s : Sim) : M Sim :=
  st <- build_sample deviceInstanceNumStr clientId s ;;
  payload <- lift_result (toJson (json_to_chars w) (snd st)) ;;
  publish_attempt topic payload ;;;
  sleep_for DATA_SEND_INTERVAL_SECONDS ;;;
  ret (fst st).

(** The first [n] iterations of the loop.  The loop has no exit: it can
    only be left by an exception that nothing catches. *)
Fixpoint loop (n : nat) (deviceInstanceNumStr clientId topic : string)
    (s : Sim) : M Sim :=
  match n with
  | O => ret s
  | S k =>
      s' <- loop_body deviceInstanceNumStr clientId topic s ;;
      loop k deviceInstanceNumStr clientId topic s'
  end.

(** Lines 214-218: the initial simulation variables.  The engine was
    seeded at line 207, before anything else uses it. *)
Definition simulation_start : M Sim :=
  now <- steady_clock_now ;;
  addon <- draw flat_duration_rand_addon ;;
  ret {| currentInclinationState := FLAT;
         currentInclination := 0%float;
         lastNonMealStateChangeTime := now;
         currentNonMealStateDurationSeconds :=
           (FLAT_STATE_BASE_DURATION_MINUTES + addon) * 60;
         inMealInclineOverride := false |}.

(** *** [main] (lines 170-319)

    [main n argv] runs the program through the first [n] iterations of its
    loop.  [Ok (Some code)] is a return from [main] with that exit code;
    [Ok None] says the program is still in its loop after [n] iterations;
    [Throw e] is an exception that left [main].  The statements after the
    loop (lines 310-318) cannot be reached and are left out, and so are the
    callbacks of lines 145-164, which the client library calls from its own
    threads.  [argv] holds at least the program name (argc >= 1): with an
    empty [argv], line 172 would stream a null pointer, which this
    definition does not describe. *)
Definition main (n : nat) (argv : list string) : M (option Z) :=
  if (Z.of_nat (List.length argv) <? 2) then
    cerr ("Usage: " ++ List.nth 0 argv ""
            ++ " <device_instance_number (e.g., 1 or 2)>") ;;;
    ret (Some 1)
  else
    let deviceInstanceNumStr := List.nth 1 argv "" in
    let clientId := CLIENT_ID_PREFIX ++ deviceInstanceNumStr in
    let topic := TOPIC_PREFIX ++ deviceInstanceNumStr ++ "/data" in
    ts <- getCurrentTimestampLocal ;;
    cout ("[" ++ ts ++ "] Starting Patient Bed Simulator: " ++ clientId) ;;;
    ts <- getCurrentTimestampLocal ;;
    cout ("[" ++ ts ++ "] Publishing to topic: " ++ topic) ;;;
    ts <- getCurrentTimestampLocal ;;
    cout ("[" ++ ts ++ "] Connecting to MQTT broker at " ++ SERVER_ADDRESS
            ++ "...") ;;;
    connected <-
      try_catch_mqtt
        (client_connect clientId ;;; ret true)
        (fun what =>
           ts <- getCurrentTimestampLocal ;;
           cerr ("[" ++ ts ++ "] Error connecting: " ++ what) ;;;
           ret false) ;;
    if connected then
      s <- simulation_start ;;
      loop n deviceInstanceNumStr clientId topic s ;;;
      ret None
    else ret (Some 1).

End Program.

(** ** The vocabulary of the properties *)

Definition minutes_since_midnight (hour minute : Z) : Z := hour * 60 + minute.

Definition in_meal_window (t : tm) : Prop :=
  exists start : Z * Z,
    In start meal_start_times /\
    minutes_since_midnight (fst start) (snd start)
      <= minutes_since_midnight (tm_hour t) (tm_min t)
      < minutes_since_midnight (fst start) (snd start) + 30.

Section Vocabulary.

Context {G : Type} {RE : RandomEngine G}.
Variable w : World G.
Variables deviceInstanceNumStr clientId topic : string.

(** The local time and the steady-clock instant an iteration reads when it
    starts from machine [m]. *)
Definition tick_local_time (m : Machine G) : tm :=
  system_clock_local w (system_clock_reads m).
Definition tick_steady_time (m : Machine G) : Z :=
  steady_clock w (steady_clock_reads m).

(** The test of line 268. *)
Definition dwell_expired (s : Sim) (m : Machine G) : bool :=
  duration_cast_seconds (tick_steady_time m - lastNonMealStateChangeTime s)
    >=? currentNonMealStateDurationSeconds s.

(** The six ways an iteration's inclination logic can go, each with the
    simulation variables it leaves and what it takes from the engine. *)
Inductive TickCase (s : Sim) (m : Machine G) : Sim -> Machine G -> Prop :=
| tick_meal m' :
    is_currently_meal_time_slot (tick_local_time m) = true ->
    gen m' = gen m ->
    TickCase s m
      {| currentInclinationState := INCLINED;
         currentInclination := MEAL_INCLINATION_DEGREES;
         lastNonMealStateChangeTime := lastNonMealStateChangeTime s;
         currentNonMealStateDurationSeconds :=
           currentNonMealStateDurationSeconds s;
         inMealInclineOverride := true |} m'
| tick_meal_exit m' :
    is_currently_meal_time_slot (tick_local_time m) = false ->
    inMealInclineOverride s = true ->
    gen m' = snd (flat_duration_rand_addon (gen m)) ->
    TickCase s m
      {| currentInclinationState := FLAT;
         currentInclination := 0%float;
         lastNonMealStateChangeTime := tick_steady_time m;
         currentNonMealStateDurationSeconds :=
           (FLAT_STATE_BASE_DURATION_MINUTES
            + fst (flat_duration_rand_addon (gen m))) * 60;
         inMealInclineOverride := false |} m'
| tick_flat_to_minor m' :
    is_currently_meal_time_slot (tick_local_time m) = false ->
    inMealInclineOverride s = false ->
    dwell_expired s m = true ->
    currentInclinationState s = FLAT ->
    PrimFloat.ltb (fst (probability_dist (gen m))) PROBABILITY_MINOR_INCLINE
      = true ->
    gen m' = snd (minor_incline_duration_rand_addon
                    (snd (probability_dist (gen m)))) ->
    TickCase s m
      {| currentInclinationState := INCLINED;
         currentInclination := MINOR_INCLINATION_DEGREES;
         lastNonMealStateChangeTime := tick_steady_time m;
         currentNonMealStateDurationSeconds :=
           (MINOR_INCLINATION_DURATION_BASE_MINUTES
            + fst (minor_incline_duration_rand_addon
                     (snd (probability_dist (gen m))))) * 60;
         inMealInclineOverride := false |} m'
| tick_flat_stays m' :
    is_currently_meal_time_slot (tick_local_time m) = false ->
    inMealInclineOverride s = false ->
    dwell_expired s m = true ->
    currentInclinationState s = FLAT ->
    PrimFloat.ltb (fst (probability_dist (gen m))) PROBABILITY_MINOR_INCLINE
      = false ->
    gen m' = snd (flat_duration_rand_addon
                    (snd (probability_dist (gen m)))) ->
    TickCase s m
      {| currentInclinationState := FLAT;
         currentInclination := 0%float;
         lastNonMealStateChangeTime := tick_steady_time m;
         currentNonMealStateDurationSeconds :=
           (FLAT_STATE_BASE_DURATION_MINUTES
            + fst (flat_duration_rand_addon
                     (snd (probability_dist (gen m))))) * 60;
         inMealInclineOverride := false |} m'
| tick_minor_to_flat m' :
    is_currently_meal_time_slot (tick_local_time m) = false ->
    inMealInclineOverride s = false ->
    dwell_expired s m = true ->
    currentInclinationState s = INCLINED ->
    gen m' = snd (flat_duration_rand_addon (gen m)) ->
    TickCase s m
      {| currentInclinationState := FLAT;
         currentInclination := 0%float;
         lastNonMealStateChangeTime := tick_steady_time m;
         currentNonMealStateDurationSeconds :=
           (FLAT_STATE_BASE_DURATION_MINUTES
            + fst (flat_duration_rand_addon (gen m))) * 60;
         inMealInclineOverride := false |} m'
| tick_dwelling m' :
    is_currently_meal_time_slot (tick_local_time m) = false ->
    inMealInclineOverride s = false ->
    dwell_expired s m = false ->
    gen m' = gen m ->
    TickCase s m s m'.

(** The machine after the two draws of lines 221-222. *)
Definition after_vitals (m : Machine G) : Machine G :=
  {| gen := snd (spo2_dist (snd (heart_rate_dist (gen m))));
     system_clock_reads := system_clock_reads m;
     steady_clock_reads := steady_clock_reads m;
     is_connected_calls := is_connected_calls m;
     publish_calls := publish_calls m;
     outputs := outputs m |}.

(** The program from line 214 through the first [n] iterations. *)
Definition run (n : nat) : M G Sim :=
  s <- simulation_start w ;;
  loop w n deviceInstanceNumStr clientId topic s.

(** [d] is a dwell duration drawn from the engine by the inclination logic
    started on machine [m]: a FLAT duration drawn first thing (lines 261 and
    283), or a FLAT or minor-incline duration drawn after the probability
    draw (lines 278 and 273). *)
Definition drawn_in_tick (m : Machine G) (d : Z) : Prop :=
  d = (FLAT_STATE_BASE_DURATION_MINUTES
       + fst (flat_duration_rand_addon (gen m))) * 60
  \/ d = (FLAT_STATE_BASE_DURATION_MINUTES
          + fst (flat_duration_rand_addon
                   (snd (probability_dist (gen m))))) * 60
  \/ d = (MINOR_INCLINATION_DURATION_BASE_MINUTES
          + fst (minor_incline_duration_rand_addon
                   (snd (probability_dist (gen m))))) * 60.

(** The timestamp the next call of [getCurrentTimestampLocal] returns. *)
Definition next_stamp (m : Machine G) : string :=
  strftime_iso8601 w (system_clock_local w (system_clock_reads m)).

Definition bump_system_clock (m : Machine G) : Machine G :=
  {| gen := gen m;
     system_clock_reads := S (system_clock_reads m);
     steady_clock_reads := steady_clock_reads m;
     is_connected_calls := is_connected_calls m;
     publish_calls := publish_calls m;
     outputs := outputs m |}.

Definition add_output (o : Output) (m : Machine G) : Machine G :=
  {| gen := gen m;
     system_clock_reads := system_clock_reads m;
     steady_clock_reads := steady_clock_reads m;
     is_connected_calls := is_connected_calls m;
     publish_calls := publish_calls m;
     outputs := (outputs m ++ [o])%list |}.

End Vocabulary.

(** The three regimes of the description: the meal override, and outside it
    FLAT or the minor incline. *)
Inductive InclinationRegime : Type :=
| Flat
| MinorInclined
| MealInclined.

Definition regime (s : Sim) : InclinationRegime :=
  if inMealInclineOverride s then MealInclined
  else if BedInclinationState_eqb (currentInclinationState s) FLAT then Flat
  else MinorInclined.

(** Inclination and state as they go together. *)
Definition Sim_consistent (s : Sim) : Prop :=
  (currentInclinationState s = FLAT /\ currentInclination s = 0%float)
  \/ (currentInclinationState s = INCLINED
      /\ (currentInclination s = 30%float \/ currentInclination s = 60%float)).

(** *** The layout of the serialized payload *)

Definition quoted (s : string) : string := DQUOTE ++ s ++ DQUOTE.

(** The member lines of an object written at [indent] spaces, one
    ["key": value] per line in the order given, separated by commas. *)
Fixpoint member_lines (indent : nat) (members : list (string * string))
  : string :=
  match members with
  | [] => ""
  | (k, v) :: rest =>
      match rest with
      | [] => indent_string indent ++ quoted k ++ ": " ++ v ++ LF
      | _ =>
          indent_string indent ++ quoted k ++ ": " ++ v ++ "," ++ LF
            ++ member_lines indent rest
      end
  end.

(** Structured text: an opening brace, the member lines, a closing brace. *)
Definition structured_text (indent : nat) (members : list (string * string))
  : string :=
  "{" ++ LF ++ member_lines indent members ++ "}".

Section PayloadVocabulary.

Variable to_chars : float -> string.

(** The payload with its members in the order the program assigns them
    (lines 132-137), given the escaped strings. *)
Definition payload_in_assignment_order (t : Telemetry)
    (dev ts bs : string) : string :=
  structured_text 4
    [("deviceId", quoted dev);
     ("timestamp", quoted ts);
     ("heartRate", dump_float to_chars (heartRate t));
     ("spo2", dump_float to_chars (spo2 t));
     ("inclination", dump_float to_chars (inclination t));
     ("bedState", quoted bs)].

(** The payload with its members in increasing key order. *)
Definition payload_in_key_order (t : Telemetry)
    (dev ts bs : string) : string :=
  structured_text 4
    [("bedState", quoted bs);
     ("deviceId", quoted dev);
     ("heartRate", dump_float to_chars (heartRate t));
     ("inclination", dump_float to_chars (inclination t));
     ("spo2", dump_float to_chars (spo2 t));
     ("timestamp", quoted ts)].

End PayloadVocabulary.

(** ** Concrete worlds, for the examples

    The engine is a script of raw numbers: each draw consumes the next one
    ([0] once the script is exhausted) and maps it into the requested
    range. *)

Definition ScriptedEngine : Type := list Z.

Definition scripted_uniform_int (a b : Z) (g : ScriptedEngine)
  : Z * ScriptedEngine :=
  match g with
  | [] => (a, [])
  | r :: g' => (a + r mod (b - a + 1), g')
  end.

Definition scripted_uniform_real (a b : float) (g : ScriptedEngine)
  : float * ScriptedEngine :=
  match g with
  | [] => (a, [])
  | r :: g' =>
      ((a + (b - a) * (PrimFloat.of_uint63 (Uint63.of_Z (r mod 1000)) / 1000))%float,
       g')
  end.

#[export] Instance ScriptedEngine_RandomEngine : RandomEngine ScriptedEngine.
Proof.
  refine {| uniform_int_distribution := scripted_uniform_int;
            uniform_real_distribution := scripted_uniform_real |}.
  intros a b g Hab. destruct g as [|r g']; simpl; [lia|].
  pose proof (Z.mod_pos_bound r (b - a + 1)). lia.
Defined.

Definition example_tm (hour minute : Z) : tm :=
  {| tm_sec := 0; tm_min := minute; tm_hour := hour; tm_mday := 1;
     tm_mon := 0; tm_year := 125; tm_wday := 3; tm_yday := 0;
     tm_isdst := 0 |}.

(** The rendering of the doubles that occur in the examples. *)
Definition example_to_chars (x : float) : string :=
  if PrimFloat.eqb x 60 then "60.0"
  else if PrimFloat.eqb x 30 then "30.0"
  else if PrimFloat.eqb x 70 then "70.0"
  else if PrimFloat.eqb x 97.25 then "97.25"
  else "0.0".

(** A world whose local time stands still at [hour:minute], whose steady
    clock advances 5 s per reading, and whose engine follows [script]. *)
Definition example_world (script : list Z) (hour minute : Z)
    (connect : option string) (publish : nat -> option string)
  : World ScriptedEngine :=
  {| seeded_engine := script;
     system_clock_local := fun _ => example_tm hour minute;
     strftime_iso8601 := fun _ => "2025-01-01T00:00:00+0000";
     steady_clock := fun k => Z.of_nat k * 5000000000;
     connect_outcome := connect;
     is_connected := fun _ => true;
     publish_outcome := publish;
     json_to_chars := example_to_chars |}.

(** The machine when [main] starts. *)
Definition boot {G : Type} (w : World G) : Machine G :=
  {| gen := seeded_engine w;
     system_clock_reads := 0;
     steady_clock_reads := 0;
     is_connected_calls := 0;
     publish_calls := 0;
     outputs := [] |}.

(** The simulation variables as [main] initializes them when the first
    duration draw adds nothing. *)
Definition example_flat : Sim :=
  {| currentInclinationState := FLAT;
     currentInclination := 0%float;
     lastNonMealStateChangeTime := 0;
     currentNonMealStateDurationSeconds := 2700;
     inMealInclineOverride := false |}.

Definition example_in_meal : Sim :=
  {| currentInclinationState := INCLINED;
     currentInclination := 60%float;
     lastNonMealStateChangeTime := 0;
     currentNonMealStateDurationSeconds := 2700;
     inMealInclineOverride := true |}.

(** A telemetry record as the program builds it during a meal. *)
Definition example_sample : Telemetry :=
  {| deviceId := "PatientBed1";
     timestamp := "2025-01-01T00:00:00+0000";
     heartRate := 70%float;
     spo2 := 97.25%float;
     inclination := 60%float;
     bedState := "INCLINED" |}.

(** A run that starts a few minutes before breakfast: the engine gives the
    first dwell the addon 0 (2700 s), then the vitals, and would give 14 to
    any later duration draw. *)
Definition breakfast_world : World ScriptedEngine :=
  example_world [0; 500; 500; 14; 14; 14] 8 0 None (fun _ => None).

(** Five past eight: inside the breakfast window. *)
Definition breakfast_time_world : World ScriptedEngine :=
  example_world [500; 500] 8 5 None (fun _ => None).

(** Half past eight: the breakfast window has just closed. *)
Definition after_breakfast_world : World ScriptedEngine :=
  example_world [14; 14] 8 30 None (fun _ => None).

(** Eleven at night, the steady clock at 3000 s, the probability draw 0.5. *)
Definition night_world : World ScriptedEngine :=
  example_world [500; 7] 23 0 None (fun _ => None).

Definition night_machine : Machine ScriptedEngine :=
  {| gen := seeded_engine night_world;
     system_clock_reads := 0;
     steady_clock_reads := 600;
     is_connected_calls := 0;
     publish_calls := 0;
     outputs := [] |}.

(** The broker refuses the connection. *)
Definition refused_world : World ScriptedEngine :=
  example_world [3; 500; 500] 9 0 (Some "MQTT error [-1]: TCP/TLS connect failure")
    (fun _ => None).

(** The first publish of the run fails, the others succeed. *)
Definition flaky_world : World ScriptedEngine :=
  example_world [0; 500; 500; 500; 500] 9 0 None
    (fun k => if Nat.eqb k 0 then Some "MQTT error [-3]: Disconnected"
              else None).

(** ** Vocabulary of the further properties *)

(** What holds of the simulation variables in each regime: under the meal
    override the bed is INCLINED at 60.0; outside it a FLAT bed is at 0.0
    with a FLAT dwell, an INCLINED bed is at 30.0 with a minor-incline
    dwell. *)
Definition regime_invariant (s : Sim) : Prop :=
  match regime s with
  | MealInclined =>
      currentInclinationState s = INCLINED
      /\ currentInclination s = 60%float
      /\ 600 <= currentNonMealStateDurationSeconds s < 3600
  | Flat =>
      currentInclinationState s = FLAT
      /\ currentInclination s = 0%float
      /\ 2700 <= currentNonMealStateDurationSeconds s < 3600
  | MinorInclined =>
      currentInclinationState s = INCLINED
      /\ currentInclination s = 30%float
      /\ 600 <= currentNonMealStateDurationSeconds s < 900
  end.

(** What the loop may emit: log lines, publishes of a serialized telemetry
    record of this device to its topic at [QOS], and sleeps of the send
    interval.  It neither connects nor disconnects. *)
Definition loop_output (to_chars : float -> string)
    (clientId topic : string) (o : Output) : Prop :=
  match o with
  | Cout _ | Cerr _ => True
  | MqttPublish t payload q =>
      t = topic /\ q = QOS
      /\ exists tel : Telemetry,
           toJson to_chars tel = Ok payload
           /\ deviceId tel = clientId
           /\ (bedState tel = "FLAT" \/ bedState tel = "INCLINED")
  | SleepFor seconds => seconds = DATA_SEND_INTERVAL_SECONDS
  | MqttConnect _ _ | MqttDisconnect => False
  end.

(** Machine [m'] has the outputs of [m] followed by further ones that all
    satisfy [P]. *)
Definition outputs_extended {G : Type} (P : Output -> Prop)
    (m m' : Machine G) : Prop :=
  exists delta : list Output,
    outputs m' = (outputs m ++ delta)%list /\ Forall P delta.

(** A line written to the standard output or to the error stream. *)
Definition is_log_line (o : Output) : Prop :=
  match o with
  | Cout _ | Cerr _ => True
  | _ => False
  end.

(** A steady clock never goes back. *)
Definition steady_clock_monotone {G : Type} (w : World G) : Prop :=
  forall i j : nat, (i <= j)%nat -> steady_clock w i <= steady_clock w j.

(** The last non-meal change time is a reading of the steady clock that
    the program has already taken. *)
Definition timer_is_past_reading {G : Type} (w : World G) (s : Sim)
    (m : Machine G) : Prop :=
  exists k : nat,
    (k < steady_clock_reads m)%nat
    /\ lastNonMealStateChangeTime s = steady_clock w k.

(** The simulation variables [s] with another dwell timer. *)
Definition with_dwell_timer (last duration : Z) (s : Sim) : Sim :=
  {| currentInclinationState := currentInclinationState s;
     currentInclination := currentInclination s;
     lastNonMealStateChangeTime := last;
     currentNonMealStateDurationSeconds := duration;
     inMealInclineOverride := inMealInclineOverride s |}.

(** Printable ASCII other than the quote and the backslash. *)
Definition plain_char (c : ascii) : bool :=
  let n := N_of_ascii c in
  (32 <=? n)%N && (n <? 128)%N && negb (n =? 34)%N && negb (n =? 92)%N.

Fixpoint plain_string (s : string) : bool :=
  match s with
  | EmptyString => true
  | String c rest => plain_char c && plain_string rest
  end.

(** A world whose client reports that it is not connected, and whose
    publishes succeed all the same. *)
Definition offline_world : World ScriptedEngine :=
  {| seeded_engine := [0; 500; 500];
     system_clock_local := fun _ => example_tm 9 0;
     strftime_iso8601 := fun _ => "2025-01-01T09:00:00+0000";
     steady_clock := fun k => Z.of_nat k * 5000000000;
     connect_outcome := None;
     is_connected := fun _ => false;
     publish_outcome := fun _ => None;
     json_to_chars := example_to_chars |}.

(** The minor incline, its ten minutes over by the time of [night_machine]. *)
Definition example_minor : Sim :=
  {| currentInclinationState := INCLINED;
     currentInclination := 30%float;
     lastNonMealStateChangeTime := 0;
     currentNonMealStateDurationSeconds := 600;
     inMealInclineOverride := false |}.

(** ** Reading a payload back

    A reader for the structured text that [dump] writes: an object of
    members, one per line, whose values are strings, numbers or null.  The
    text of a number is handed to a number reader [from_chars], the
    counterpart of the library's [to_chars]. *)





















(** ** The meal-window test against its description

    The description of the test: some configured meal start has
    [start <= now < start + 30], both in minutes since midnight. *)

Lemma meal_slot_scan_spec (h mi : Z) (meals : list (Z * Z)) :
  meal_slot_scan h mi meals = true <->
  exists start : Z * Z,
    In start meals /\
    minutes_since_midnight (fst start) (snd start)
      <= minutes_since_midnight h mi
      < minutes_since_midnight (fst start) (snd start) + 30.
Proof.
  unfold minutes_since_midnight.
  induction meals as [|[sh sm] rest IH]; simpl.
  - split; [discriminate | intros [_ [[] _]]].
  - unfold MEAL_INCLINATION_DURATION_MINUTES.
    destruct ((h * 60 + mi >=? sh * 60 + sm)
              && (h * 60 + mi <? sh * 60 + sm + 30)) eqn:E.
    + split; [intros _ | reflexivity].
      exists (sh, sm). simpl. apply andb_true_iff in E. destruct E as [E1 E2].
      apply Z.geb_le in E1. apply Z.ltb_lt in E2. split; [now left | lia].
    + rewrite IH. split.
      * intros [st [Hin Hr]]. exists st. split; [now right | exact Hr].
      * intros [st [[Heq | Hin] Hr]].
        -- subst st. simpl in Hr. apply andb_false_iff in E.
           destruct E as [E | E];
             [rewrite Z.geb_leb in E; apply Z.leb_gt in E
             | apply Z.ltb_ge in E]; lia.
        -- exists st. split; assumption.
Qed.

Lemma is_currently_meal_time_slot_spec (t : tm) :
  is_currently_meal_time_slot t = true <-> in_meal_window t.
Proof. unfold is_currently_meal_time_slot, in_meal_window. apply meal_slot_scan_spec. Qed.

Lemma not_meal_time_slot (t : tm) :
  ~ in_meal_window t -> is_currently_meal_time_slot t = false.
Proof.
  intros H. destruct (is_currently_meal_time_slot t) eqn:E; [|reflexivity].
  apply is_currently_meal_time_slot_spec in E. contradiction.
Qed.

(** With the fields of a [struct tm] in their ranges, every value the test
    computes fits an [int] with room to spare: the arithmetic over [Z] is the
    arithmetic of the program. *)
Lemma meal_test_values_fit_int (t : tm) (start : Z * Z) :
  0 <= tm_hour t <= 23 -> 0 <= tm_min t <= 59 ->
  In start meal_start_times ->
  0 <= minutes_since_midnight (tm_hour t) (tm_min t) <= 1439 /\
  0 <= minutes_since_midnight (fst start) (snd start) + 30 <= 1110.
Proof.
  unfold minutes_since_midnight. intros Hh Hm Hin. split; [lia|].
  simpl in Hin. destruct Hin as [<- | [<- | [<- | []]]]; simpl; lia.
Qed.

(** ** The inclination logic, branch by branch *)

Section InclinationLogic.

Context {G : Type} {RE : RandomEngine G}.
Variable w : World G.
Variable deviceInstanceNumStr : string.

Ltac run_logic :=
  unfold inclination_logic, bind, ret, draw, getCurrentTimestampLocal,
    system_clock_localtime, steady_clock_now, cout, cerr, emit;
  cbn beta iota zeta delta [fst snd gen system_clock_reads
    steady_clock_reads is_connected_calls publish_calls outputs].

(** Branch of lines 250-256: a meal window is active. *)
Lemma inclination_logic_meal (s : Sim) (m : Machine G) :
  is_currently_meal_time_slot (tick_local_time w m) = true ->
  exists m',
    inclination_logic w deviceInstanceNumStr s m =
      (Ok {| currentInclinationState := INCLINED;
             currentInclination := MEAL_INCLINATION_DEGREES;
             lastNonMealStateChangeTime := lastNonMealStateChangeTime s;
             currentNonMealStateDurationSeconds :=
               currentNonMealStateDurationSeconds s;
             inMealInclineOverride := true |}, m')
    /\ gen m' = gen m.
Proof.
  unfold tick_local_time. intros Hmeal. run_logic. rewrite Hmeal.
  destruct (inMealInclineOverride s); cbn; eexists; split; reflexivity.
Qed.

(** Branch of lines 258-264: the meal override ends. *)
Lemma inclination_logic_meal_exit (s : Sim) (m : Machine G) :
  is_currently_meal_time_slot (tick_local_time w m) = false ->
  inMealInclineOverride s = true ->
  exists m',
    inclination_logic w deviceInstanceNumStr s m =
      (Ok {| currentInclinationState := FLAT;
             currentInclination := 0%float;
             lastNonMealStateChangeTime := tick_steady_time w m;
             currentNonMealStateDurationSeconds :=
               (FLAT_STATE_BASE_DURATION_MINUTES
                + fst (flat_duration_rand_addon (gen m))) * 60;
             inMealInclineOverride := false |}, m')
    /\ gen m' = snd (flat_duration_rand_addon (gen m)).
Proof.
  unfold tick_local_time, tick_steady_time. intros Hmeal Hov. run_logic.
  rewrite Hmeal, Hov. cbn. eexists; split; reflexivity.
Qed.

(** Branch of lines 270-274: from FLAT into the minor incline. *)
Lemma inclination_logic_flat_to_minor (s : Sim) (m : Machine G) :
  is_currently_meal_time_slot (tick_local_time w m) = false ->
  inMealInclineOverride s = false ->
  dwell_expired w s m = true ->
  currentInclinationState s = FLAT ->
  PrimFloat.ltb (fst (probability_dist (gen m))) PROBABILITY_MINOR_INCLINE
    = true ->
  exists m',
    inclination_logic w deviceInstanceNumStr s m =
      (Ok {| currentInclinationState := INCLINED;
             currentInclination := MINOR_INCLINATION_DEGREES;
             lastNonMealStateChangeTime := tick_steady_time w m;
             currentNonMealStateDurationSeconds :=
               (MINOR_INCLINATION_DURATION_BASE_MINUTES
                + fst (minor_incline_duration_rand_addon
                         (snd (probability_dist (gen m))))) * 60;
             inMealInclineOverride := false |}, m')
    /\ gen m' = snd (minor_incline_duration_rand_addon
                       (snd (probability_dist (gen m)))).
Proof.
  unfold dwell_expired, tick_local_time, tick_steady_time.
  intros Hmeal Hov Hexp Hst Hp. run_logic.
  rewrite Hmeal, Hov, Hexp, Hst. cbn. rewrite Hp. cbn.
  eexists; split; reflexivity.
Qed.

(** Branch of lines 275-279: FLAT stays FLAT, with a new dwell. *)
Lemma inclination_logic_flat_stays (s : Sim) (m : Machine G) :
  is_currently_meal_time_slot (tick_local_time w m) = false ->
  inMealInclineOverride s = false ->
  dwell_expired w s m = true ->
  currentInclinationState s = FLAT ->
  PrimFloat.ltb (fst (probability_dist (gen m))) PROBABILITY_MINOR_INCLINE
    = false ->
  exists m',
    inclination_logic w deviceInstanceNumStr s m =
      (Ok {| currentInclinationState := FLAT;
             currentInclination := 0%float;
             lastNonMealStateChangeTime := tick_steady_time w m;
             currentNonMealStateDurationSeconds :=
               (FLAT_STATE_BASE_DURATION_MINUTES
                + fst (flat_duration_rand_addon
                         (snd (probability_dist (gen m))))) * 60;
             inMealInclineOverride := false |}, m')
    /\ gen m' = snd (flat_duration_rand_addon
                       (snd (probability_dist (gen m)))).
Proof.
  unfold dwell_expired, tick_local_time, tick_steady_time.
  intros Hmeal Hov Hexp Hst Hp. run_logic.
  rewrite Hmeal, Hov, Hexp, Hst. cbn. rewrite Hp. cbn.
  eexists; split; reflexivity.
Qed.

(** Branch of lines 280-285: the minor incline ends. *)
Lemma inclination_logic_minor_to_flat (s : Sim) (m : Machine G) :
  is_currently_meal_time_slot (tick_local_time w m) = false ->
  inMealInclineOverride s = false ->
  dwell_expired w s m = true ->
  currentInclinationState s = INCLINED ->
  exists m',
    inclination_logic w deviceInstanceNumStr s m =
      (Ok {| currentInclinationState := FLAT;
             currentInclination := 0%float;
             lastNonMealStateChangeTime := tick_steady_time w m;
             currentNonMealStateDurationSeconds :=
               (FLAT_STATE_BASE_DURATION_MINUTES
                + fst (flat_duration_rand_addon (gen m))) * 60;
             inMealInclineOverride := false |}, m')
    /\ gen m' = snd (flat_duration_rand_addon (gen m)).
Proof.
  unfold dwell_expired, tick_local_time, tick_steady_time.
  intros Hmeal Hov Hexp Hst. run_logic.
  rewrite Hmeal, Hov, Hexp, Hst. cbn. eexists; split; reflexivity.
Qed.

(** Line 268 false: nothing changes. *)
Lemma inclination_logic_dwelling (s : Sim) (m : Machine G) :
  is_currently_meal_time_slot (tick_local_time w m) = false ->
  inMealInclineOverride s = false ->
  dwell_expired w s m = false ->
  exists m',
    inclination_logic w deviceInstanceNumStr s m = (Ok s, m')
    /\ gen m' = gen m.
Proof.
  unfold dwell_expired, tick_local_time, tick_steady_time.
  intros Hmeal Hov Hexp. run_logic.
  rewrite Hmeal, Hov, Hexp. eexists; split; reflexivity.
Qed.

(** The inclination logic always returns, in one of the cases above: it
    raises nothing. *)
Lemma inclination_logic_cases (s : Sim) (m : Machine G) :
  exists s' m',
    inclination_logic w deviceInstanceNumStr s m = (Ok s', m')
    /\ TickCase w s m s' m'.
Proof.
  destruct (is_currently_meal_time_slot (tick_local_time w m)) eqn:Hmeal.
  { destruct (inclination_logic_meal s m Hmeal) as [m' [E Hg]].
    eexists _, m'. split; [exact E | now apply tick_meal]. }
  destruct (inMealInclineOverride s) eqn:Hov.
  { destruct (inclination_logic_meal_exit s m Hmeal Hov) as [m' [E Hg]].
    eexists _, m'. split; [exact E | now apply tick_meal_exit]. }
  destruct (dwell_expired w s m) eqn:Hexp.
  2:{ destruct (inclination_logic_dwelling s m Hmeal Hov Hexp) as [m' [E Hg]].
      eexists _, m'. split; [exact E | now apply tick_dwelling]. }
  destruct (currentInclinationState s) eqn:Hst.
  2:{ destruct (inclination_logic_minor_to_flat s m Hmeal Hov Hexp Hst)
        as [m' [E Hg]].
      eexists _, m'. split; [exact E | now apply tick_minor_to_flat]. }
  destruct (PrimFloat.ltb (fst (probability_dist (gen m)))
              PROBABILITY_MINOR_INCLINE) eqn:Hp.
  - destruct (inclination_logic_flat_to_minor s m Hmeal Hov Hexp Hst Hp)
      as [m' [E Hg]].
    eexists _, m'. split; [exact E | now apply tick_flat_to_minor].
  - destruct (inclination_logic_flat_stays s m Hmeal Hov Hexp Hst Hp)
      as [m' [E Hg]].
    eexists _, m'. split; [exact E | now apply tick_flat_stays].
Qed.

End InclinationLogic.

(** ** One iteration up to the telemetry record *)

Section BuildSample.

Context {G : Type} {RE : RandomEngine G}.
Variable w : World G.
Variables deviceInstanceNumStr clientId : string.

Lemma build_sample_eq (s s' : Sim) (m m1 : Machine G) :
  inclination_logic w deviceInstanceNumStr s (after_vitals m) = (Ok s', m1) ->
  exists m',
    build_sample w deviceInstanceNumStr clientId s m =
      (Ok (s',
           {| deviceId := clientId;
              timestamp :=
                strftime_iso8601 w
                  (system_clock_local w (system_clock_reads m1));
              heartRate := fst (heart_rate_dist (gen m));
              spo2 := fst (spo2_dist (snd (heart_rate_dist (gen m))));
              inclination := currentInclination s';
              bedState :=
                if BedInclinationState_eqb (currentInclinationState s') FLAT
                then "FLAT" else "INCLINED" |}), m')
    /\ gen m' = gen m1
    /\ publish_calls m' = publish_calls m1
    /\ outputs m' = outputs m1.
Proof.
  intros E. unfold build_sample, bind, draw. fold (after_vitals m).
  cbn beta iota zeta delta [fst snd gen system_clock_reads
    steady_clock_reads is_connected_calls publish_calls outputs].
  change {| gen := snd (spo2_dist (snd (heart_rate_dist (gen m))));
            system_clock_reads := system_clock_reads m;
            steady_clock_reads := steady_clock_reads m;
            is_connected_calls := is_connected_calls m;
            publish_calls := publish_calls m;
            outputs := outputs m |} with (after_vitals m).
  rewrite E. unfold Telemetry_new, bind, ret, getCurrentTimestampLocal,
    system_clock_localtime. cbn.
  eexists. split; [reflexivity|]. cbn. auto.
Qed.

(** An iteration always gets as far as the telemetry record. *)
Lemma build_sample_total (s : Sim) (m : Machine G) :
  exists s' t m',
    build_sample w deviceInstanceNumStr clientId s m = (Ok (s', t), m').
Proof.
  destruct (inclination_logic_cases w deviceInstanceNumStr s (after_vitals m))
    as [s' [m1 [E _]]].
  destruct (build_sample_eq s s' m m1 E) as [m' [E' _]].
  eexists _, _, _. exact E'.
Qed.

End BuildSample.

(** ** Properties of the inclination state machine *)

Section StateMachine.

Context {G : Type} {RE : RandomEngine G}.
Variable w : World G.
Variables deviceInstanceNumStr clientId : string.

Ltac sim_fields :=
  cbn [currentInclinationState currentInclination
       lastNonMealStateChangeTime currentNonMealStateDurationSeconds
       inMealInclineOverride].

Lemma flat_addon_range (g : G) :
  0 <= fst (flat_duration_rand_addon g) < 15.
Proof.
  unfold flat_duration_rand_addon, FLAT_STATE_RAND_ADD_MINUTES.
  pose proof (uniform_int_distribution_range 0 (15 - 1) g). lia.
Qed.

Lemma minor_addon_range (g : G) :
  0 <= fst (minor_incline_duration_rand_addon g) < 5.
Proof.
  unfold minor_incline_duration_rand_addon,
    MINOR_INCLINATION_DURATION_RAND_ADD_MINUTES.
  pose proof (uniform_int_distribution_range 0 (5 - 1) g). lia.
Qed.

(** C1: at every iteration whose local time lies in
    [start, start + 30) minutes for some configured meal start, the
    iteration sets the inclination to 60.0 and the state to INCLINED, and
    the telemetry record it builds carries 60.0 and the label "INCLINED",
    whatever the simulation variables were before. *)
Theorem meal_window_forces_meal_incline (s : Sim) (m : Machine G) :
  in_meal_window (tick_local_time w m) ->
  exists s' t m',
    build_sample w deviceInstanceNumStr clientId s m = (Ok (s', t), m')
    /\ currentInclination s' = 60%float
    /\ currentInclinationState s' = INCLINED
    /\ inclination t = 60%float
    /\ bedState t = "INCLINED".
Proof.
  intros Hwin.
  assert (Hmeal : is_currently_meal_time_slot
                    (tick_local_time w (after_vitals m)) = true).
  { apply is_currently_meal_time_slot_spec. exact Hwin. }
  destruct (inclination_logic_meal w deviceInstanceNumStr s _ Hmeal)
    as [m1 [E _]].
  destruct (build_sample_eq w deviceInstanceNumStr clientId s _ m m1 E)
    as [m' [E' _]].
  eexists _, _, m'. split; [exact E'|]. cbn. auto.
Qed.

(** C5: at every iteration that starts under the meal override while the
    local time lies outside every meal window, the inclination logic sets
    the state to FLAT at 0.0, draws a new dwell duration of 45 plus a
    uniform integer in [0, 15) minutes, records the current steady-clock
    instant as the last non-meal change, and clears the override. *)
Theorem meal_exit_resets_to_flat (s : Sim) (m : Machine G) :
  inMealInclineOverride s = true ->
  ~ in_meal_window (tick_local_time w m) ->
  exists s' m',
    inclination_logic w deviceInstanceNumStr s m = (Ok s', m')
    /\ currentInclinationState s' = FLAT
    /\ currentInclination s' = 0%float
    /\ currentNonMealStateDurationSeconds s'
       = (45 + fst (flat_duration_rand_addon (gen m))) * 60
    /\ 0 <= fst (flat_duration_rand_addon (gen m)) < 15
    /\ lastNonMealStateChangeTime s' = tick_steady_time w m
    /\ inMealInclineOverride s' = false.
Proof.
  intros Hov Hwin. apply not_meal_time_slot in Hwin.
  destruct (inclination_logic_meal_exit w deviceInstanceNumStr s m Hwin Hov)
    as [m' [E _]].
  eexists _, m'. split; [exact E|]. cbn.
  repeat split; try reflexivity; apply flat_addon_range.
Qed.

(** C6: at every iteration with no meal window active, no meal override
    to leave, state FLAT, and at least the dwell duration elapsed (whole
    seconds) since the last non-meal change: if the draw from [0, 1) is
    below 0.20 the state becomes INCLINED at 30.0 with a new dwell of 10
    plus a uniform integer in [0, 5) minutes; otherwise the state stays
    FLAT at 0.0 with a new dwell of 45 plus a uniform integer in [0, 15)
    minutes; either way the last non-meal change becomes the current
    instant. *)
Theorem flat_dwell_expiry (s : Sim) (m : Machine G) :
  ~ in_meal_window (tick_local_time w m) ->
  inMealInclineOverride s = false ->
  currentInclinationState s = FLAT ->
  duration_cast_seconds (tick_steady_time w m - lastNonMealStateChangeTime s)
    >= currentNonMealStateDurationSeconds s ->
  let p := fst (probability_dist (gen m)) in
  let g := snd (probability_dist (gen m)) in
  exists s' m',
    inclination_logic w deviceInstanceNumStr s m = (Ok s', m')
    /\ lastNonMealStateChangeTime s' = tick_steady_time w m
    /\ if PrimFloat.ltb p 0.2 then
         currentInclinationState s' = INCLINED
         /\ currentInclination s' = 30%float
         /\ currentNonMealStateDurationSeconds s'
            = (10 + fst (minor_incline_duration_rand_addon g)) * 60
         /\ 0 <= fst (minor_incline_duration_rand_addon g) < 5
       else
         currentInclinationState s' = FLAT
         /\ currentInclination s' = 0%float
         /\ currentNonMealStateDurationSeconds s'
            = (45 + fst (flat_duration_rand_addon g)) * 60
         /\ 0 <= fst (flat_duration_rand_addon g) < 15.
Proof.
  intros Hwin Hov Hst Hel p g. apply not_meal_time_slot in Hwin.
  assert (Hexp : dwell_expired w s m = true).
  { unfold dwell_expired. rewrite Z.geb_leb. apply Z.leb_le. lia. }
  destruct (PrimFloat.ltb p 0.2) eqn:Hp.
  - destruct (inclination_logic_flat_to_minor w deviceInstanceNumStr s m
                Hwin Hov Hexp Hst Hp) as [m' [E _]].
    eexists _, m'. split; [exact E|]. cbn.
    repeat split; try reflexivity; apply minor_addon_range.
  - destruct (inclination_logic_flat_stays w deviceInstanceNumStr s m
                Hwin Hov Hexp Hst Hp) as [m' [E _]].
    eexists _, m'. split; [exact E|]. cbn.
    repeat split; try reflexivity; apply flat_addon_range.
Qed.

Lemma simulation_start_eq (m : Machine G) :
  exists m',
    simulation_start w m =
      (Ok {| currentInclinationState := FLAT;
             currentInclination := 0%float;
             lastNonMealStateChangeTime := tick_steady_time w m;
             currentNonMealStateDurationSeconds :=
               (FLAT_STATE_BASE_DURATION_MINUTES
                + fst (flat_duration_rand_addon (gen m))) * 60;
             inMealInclineOverride := false |}, m')
    /\ outputs m' = outputs m
    /\ publish_calls m' = publish_calls m.
Proof.
  unfold simulation_start, bind, ret, draw, steady_clock_now. cbn.
  eexists. split; [reflexivity|]. cbn. auto.
Qed.

(** C7: the dwell duration drawn when [main] initializes the simulation
    lies in [2700, 3600) seconds; and an iteration either leaves the dwell
    duration as it was, drawing nothing, or ends in state FLAT with a
    duration in [2700, 3600) seconds, or ends in the minor incline (30.0)
    with a duration in [600, 900) seconds. *)
Theorem dwell_durations_in_range (s : Sim) (m : Machine G) :
  (exists s0 m0,
     simulation_start w m = (Ok s0, m0)
     /\ currentInclinationState s0 = FLAT
     /\ 2700 <= currentNonMealStateDurationSeconds s0 < 3600)
  /\
  (exists s' m',
     inclination_logic w deviceInstanceNumStr s m = (Ok s', m')
     /\ ((currentNonMealStateDurationSeconds s'
          = currentNonMealStateDurationSeconds s /\ gen m' = gen m)
         \/ (currentInclinationState s' = FLAT
             /\ 2700 <= currentNonMealStateDurationSeconds s' < 3600)
         \/ (currentInclinationState s' = INCLINED
             /\ currentInclination s' = 30%float
             /\ 600 <= currentNonMealStateDurationSeconds s' < 900))).
Proof.
  split.
  - destruct (simulation_start_eq m) as [m0 [E _]].
    eexists _, m0. split; [exact E|]. sim_fields.
    pose proof (flat_addon_range (gen m)).
    unfold FLAT_STATE_BASE_DURATION_MINUTES. split; [reflexivity | lia].
  - destruct (inclination_logic_cases w deviceInstanceNumStr s m)
      as [s' [m' [E C]]].
    exists s', m'. split; [exact E|].
    destruct C; sim_fields;
      unfold FLAT_STATE_BASE_DURATION_MINUTES,
        MINOR_INCLINATION_DURATION_BASE_MINUTES.
    + left. auto.
    + right; left. pose proof (flat_addon_range (gen m)).
      split; [reflexivity | lia].
    + right; right.
      pose proof (minor_addon_range (snd (probability_dist (gen m)))).
      repeat split; lia.
    + right; left.
      pose proof (flat_addon_range (snd (probability_dist (gen m)))).
      split; [reflexivity | lia].
    + right; left. pose proof (flat_addon_range (gen m)).
      split; [reflexivity | lia].
    + left. auto.
Qed.

End StateMachine.

(** ** The publish loop *)

Section PublishLoop.

Context {G : Type} {RE : RandomEngine G}.
Variable w : World G.
Variables deviceInstanceNumStr clientId topic : string.

(** The publish attempt of lines 298-305 never lets an [mqtt::exception]
    out: whatever the client answers, control reaches line 307. *)
Lemma publish_attempt_returns (payload : string) (m : Machine G) :
  exists m',
    publish_attempt w topic payload m = (Ok tt, m')
    /\ gen m' = gen m
    /\ publish_calls m' = S (publish_calls m).
Proof.
  unfold publish_attempt, try_catch_mqtt, bind, ret, client_is_connected,
    client_publish, getCurrentTimestampLocal, system_clock_localtime,
    cerr, emit.
  cbn beta iota zeta delta [fst snd gen system_clock_reads
    steady_clock_reads is_connected_calls publish_calls outputs].
  destruct (is_connected w (is_connected_calls m)); cbn;
    destruct (publish_outcome w (publish_calls m)); cbn;
    eexists; repeat split; reflexivity.
Qed.

(** When the publish call throws, the handler writes its line to the error
    stream right after the attempt. *)
Lemma publish_attempt_failure (payload what : string) (m : Machine G) :
  publish_outcome w (publish_calls m) = Some what ->
  exists m' ts pre,
    publish_attempt w topic payload m = (Ok tt, m')
    /\ gen m' = gen m
    /\ outputs m' =
         (pre ++ [MqttPublish topic payload QOS;
                  Cerr ("[" ++ ts ++ "] Error publishing: " ++ what)])%list.
Proof.
  intros Hpub.
  unfold publish_attempt, try_catch_mqtt, bind, ret, client_is_connected,
    client_publish, getCurrentTimestampLocal, system_clock_localtime,
    cerr, emit.
  cbn beta iota zeta delta [fst snd gen system_clock_reads
    steady_clock_reads is_connected_calls publish_calls outputs].
  destruct (is_connected w (is_connected_calls m)); cbn; rewrite Hpub; cbn;
    eexists _, _, _; (split; [reflexivity|]); cbn;
    (split; [reflexivity|]); rewrite <- app_assoc; reflexivity.
Qed.

(** C9: when the publish call of an iteration throws an [mqtt::exception],
    the iteration writes "Error publishing" with the exception's text to
    the error stream, sleeps, and ends normally with the simulation
    variables exactly as the inclination logic left them and the engine
    untouched; the loop goes on with the next iteration from there. *)
Theorem publish_failure_is_not_fatal (s : Sim) (m m1 : Machine G)
    (st : Sim * Telemetry) (payload what : string) :
  build_sample w deviceInstanceNumStr clientId s m = (Ok st, m1) ->
  toJson (json_to_chars w) (snd st) = Ok payload ->
  publish_outcome w (publish_calls m1) = Some what ->
  exists m2 ts pre,
    loop_body w deviceInstanceNumStr clientId topic s m = (Ok (fst st), m2)
    /\ gen m2 = gen m1
    /\ outputs m2 =
         (pre ++ [MqttPublish topic payload QOS;
                  Cerr ("[" ++ ts ++ "] Error publishing: " ++ what);
                  SleepFor DATA_SEND_INTERVAL_SECONDS])%list
    /\ forall k,
         loop w (S k) deviceInstanceNumStr clientId topic s m =
         loop w k deviceInstanceNumStr clientId topic (fst st) m2.
Proof.
  intros Hbuild Hjson Hpub.
  destruct (publish_attempt_failure payload what m1 Hpub)
    as [m' [ts [pre [Hatt [Hgen Hout]]]]].
  assert (Hbody :
    loop_body w deviceInstanceNumStr clientId topic s m =
      (Ok (fst st),
       {| gen := gen m';
          system_clock_reads := system_clock_reads m';
          steady_clock_reads := steady_clock_reads m';
          is_connected_calls := is_connected_calls m';
          publish_calls := publish_calls m';
          outputs := (outputs m' ++ [SleepFor DATA_SEND_INTERVAL_SECONDS])%list
       |})).
  { unfold loop_body, bind. rewrite Hbuild. unfold lift_result.
    rewrite Hjson, Hatt. reflexivity. }
  eexists _, ts, pre. split; [exact Hbody|]. cbn [gen outputs].
  split; [exact Hgen|]. split.
  - rewrite Hout, <- app_assoc. reflexivity.
  - intros k. cbn [loop]. unfold bind at 1. rewrite Hbody. reflexivity.
Qed.

Lemma bind_Ok {A B} (c : M G A) (k : A -> M G B) (m m' : Machine G) (a : A) :
  c m = (Ok a, m') -> bind c k m = k a m'.
Proof. intros E. unfold bind. rewrite E. reflexivity. Qed.

Lemma bind_getCurrentTimestampLocal {B} (k : string -> M G B)
    (m : Machine G) :
  bind (getCurrentTimestampLocal w) k m
  = k (next_stamp w m) (bump_system_clock m).
Proof. reflexivity. Qed.

Lemma bind_cout {B} (line : string) (k : unit -> M G B) (m : Machine G) :
  bind (cout line) k m = k tt (add_output (Cout line) m).
Proof. reflexivity. Qed.

Lemma bind_cerr {B} (line : string) (k : unit -> M G B) (m : Machine G) :
  bind (cerr line) k m = k tt (add_output (Cerr line) m).
Proof. reflexivity. Qed.

(** Lines 199-204 when the connect throws. *)
Lemma connect_refused (client_id what : string) (m : Machine G)
    (k : string -> string) :
  connect_outcome w = Some what ->
  try_catch_mqtt
    (client_connect w client_id ;;; ret true)
    (fun what' =>
       ts <- getCurrentTimestampLocal w ;;
       cerr (k (ts ++ "] Error connecting: " ++ what')) ;;;
       ret false) m
  = (Ok false,
     add_output
       (Cerr (k (next_stamp w (add_output (MqttConnect SERVER_ADDRESS client_id) m)
                   ++ "] Error connecting: " ++ what)))
       (bump_system_clock
          (add_output (MqttConnect SERVER_ADDRESS client_id) m))).
Proof.
  intros Hconn. unfold try_catch_mqtt, client_connect.
  unfold bind at 1. unfold bind at 1. unfold emit at 1. rewrite Hconn.
  unfold throw. cbv beta iota.
  rewrite bind_getCurrentTimestampLocal. cbv beta.
  rewrite bind_cerr. reflexivity.
Qed.

(** C8: with a device argument on the command line, when the initial
    connect throws an [mqtt::exception], [main] writes "Error connecting"
    with the exception's text to the error stream and returns 1; it has
    published nothing and has not touched the engine, however many loop
    iterations the run was allowed. *)
Theorem connect_failure_exits_with_1 (n : nat) (argv : list string)
    (m : Machine G) (what : string) :
  (2 <= List.length argv)%nat ->
  connect_outcome w = Some what ->
  exists m' ts0 ts1 ts2 ts3,
    main w n argv m = (Ok (Some 1), m')
    /\ publish_calls m' = publish_calls m
    /\ gen m' = gen m
    /\ outputs m' =
         (outputs m ++
          [Cout ("[" ++ ts0 ++ "] Starting Patient Bed Simulator: "
                   ++ CLIENT_ID_PREFIX ++ List.nth 1 argv "");
           Cout ("[" ++ ts1 ++ "] Publishing to topic: "
                   ++ TOPIC_PREFIX ++ List.nth 1 argv "" ++ "/data");
           Cout ("[" ++ ts2 ++ "] Connecting to MQTT broker at "
                   ++ SERVER_ADDRESS ++ "...");
           MqttConnect SERVER_ADDRESS (CLIENT_ID_PREFIX ++ List.nth 1 argv "");
           Cerr ("[" ++ ts3 ++ "] Error connecting: " ++ what)])%list.
Proof.
  intros Hargc Hconn. unfold main.
  assert (Hlt : (Z.of_nat (List.length argv) <? 2) = false)
    by (apply Z.ltb_ge; lia).
  rewrite Hlt.
  repeat (rewrite bind_getCurrentTimestampLocal; cbv beta;
          rewrite bind_cout; cbv beta).
  rewrite (bind_Ok _ _ _ _ _ (connect_refused _ _ _ _ Hconn)).
  cbv beta iota. unfold ret.
  eexists _, _, _, _, _. split; [reflexivity|].
  cbn [gen publish_calls outputs add_output bump_system_clock].
  repeat rewrite <- app_assoc. cbn [app].
  repeat split; reflexivity.
Qed.

End PublishLoop.

(** ** Invariants along a run *)

(** Distinct binary64 values are told apart by the kernel's own equality
    test on floats. *)
Lemma Sim_consistent_flat_iff (s : Sim) :
  Sim_consistent s ->
  (currentInclinationState s = FLAT <-> currentInclination s = 0%float).
Proof.
  intros [[Hs Hi] | [Hs [Hi | Hi]]]; rewrite Hs, Hi; split; intros H;
    try reflexivity; discriminate H.
Qed.

Section Run.

Context {G : Type} {RE : RandomEngine G}.
Variable w : World G.
Variables deviceInstanceNumStr clientId topic : string.

Lemma TickCase_consistent (s s' : Sim) (m m' : Machine G) :
  TickCase w s m s' m' -> Sim_consistent s -> Sim_consistent s'.
Proof.
  intros C Hs. destruct C; try exact Hs; unfold Sim_consistent; cbn; auto.
Qed.

Lemma build_sample_inv (s s' : Sim) (t : Telemetry) (m m' : Machine G) :
  build_sample w deviceInstanceNumStr clientId s m = (Ok (s', t), m') ->
  exists m1,
    TickCase w s (after_vitals m) s' m1
    /\ inclination t = currentInclination s'
    /\ bedState t =
         (if BedInclinationState_eqb (currentInclinationState s') FLAT
          then "FLAT" else "INCLINED").
Proof.
  intros E.
  destruct (inclination_logic_cases w deviceInstanceNumStr s (after_vitals m))
    as [s1 [m1 [E1 C]]].
  destruct (build_sample_eq w deviceInstanceNumStr clientId s s1 m m1 E1)
    as [m2 [E2 _]].
  rewrite E2 in E. injection E as <- <- <-.
  exists m1. cbn. auto.
Qed.

Lemma loop_body_inv (s s' : Sim) (m m' : Machine G) :
  loop_body w deviceInstanceNumStr clientId topic s m = (Ok s', m') ->
  exists t m1,
    build_sample w deviceInstanceNumStr clientId s m = (Ok (s', t), m1).
Proof.
  unfold loop_body, bind at 1.
  destruct (build_sample w deviceInstanceNumStr clientId s m)
    as [[[s1 t] | e] m1]; [|discriminate].
  unfold bind at 1, lift_result.
  destruct (toJson (json_to_chars w) (snd (s1, t))) as [payload | e];
    [|discriminate].
  unfold bind at 1.
  destruct (publish_attempt w topic payload m1) as [[[] | e] m2];
    [|discriminate].
  unfold bind, sleep_for, emit, ret. cbn. intros E. injection E as <- _.
  eexists _, _. reflexivity.
Qed.

Lemma loop_consistent (n : nat) (s s' : Sim) (m m' : Machine G) :
  loop w n deviceInstanceNumStr clientId topic s m = (Ok s', m') ->
  Sim_consistent s -> Sim_consistent s'.
Proof.
  revert s m. induction n as [|n IH]; intros s m E Hs.
  - cbn in E. unfold ret in E. injection E as <- _. exact Hs.
  - cbn [loop] in E. unfold bind at 1 in E.
    destruct (loop_body w deviceInstanceNumStr clientId topic s m)
      as [[s1 | e] m1] eqn:Eb; [|discriminate].
    destruct (loop_body_inv s s1 m m1 Eb) as [t [m2 Ebs]].
    destruct (build_sample_inv s s1 t m m2 Ebs) as [m3 [C _]].
    apply (IH s1 m1 E). exact (TickCase_consistent s s1 _ m3 C Hs).
Qed.

Lemma run_consistent (n : nat) (s : Sim) (m m' : Machine G) :
  run w deviceInstanceNumStr clientId topic n m = (Ok s, m') -> Sim_consistent s.
Proof.
  unfold run, bind at 1.
  destruct (simulation_start_eq w m) as [m0 [E0 _]]. rewrite E0.
  intros E. apply (loop_consistent n _ s m0 m' E).
  left. cbn. auto.
Qed.

(** C10: in a run of the program, after the inclination update of every
    iteration the inclination is 0.0, 30.0 or 60.0 and the state is FLAT
    exactly when the inclination is 0.0; the telemetry record of the
    iteration pairs "FLAT" with 0.0 and "INCLINED" with 30.0 or 60.0. *)
Theorem inclination_and_state_agree (n : nat) (s s' : Sim) (t : Telemetry)
    (m m1 m2 : Machine G) :
  run w deviceInstanceNumStr clientId topic n m = (Ok s, m1) ->
  build_sample w deviceInstanceNumStr clientId s m1 = (Ok (s', t), m2) ->
  (currentInclination s' = 0%float \/ currentInclination s' = 30%float
   \/ currentInclination s' = 60%float)
  /\ (currentInclinationState s' = FLAT <-> currentInclination s' = 0%float)
  /\ ((bedState t = "FLAT" /\ inclination t = 0%float)
      \/ (bedState t = "INCLINED"
          /\ (inclination t = 30%float \/ inclination t = 60%float))).
Proof.
  intros Hrun Hbuild.
  pose proof (run_consistent n s m m1 Hrun) as Hs.
  destruct (build_sample_inv s s' t m1 m2 Hbuild) as [m3 [C [Hi Hb]]].
  pose proof (TickCase_consistent s s' _ m3 C Hs) as Hs'.
  split; [|split].
  - destruct Hs' as [[_ H] | [_ [H | H]]]; auto.
  - apply Sim_consistent_flat_iff. exact Hs'.
  - rewrite Hi, Hb.
    destruct Hs' as [[H1 H2] | [H1 H2]]; rewrite H1; cbn; auto.
Qed.

End Run.

(** ** When the dwell duration is redrawn *)

Section DwellRedraw.

Context {G : Type} {RE : RandomEngine G}.
Variable w : World G.
Variable deviceInstanceNumStr : string.

(** C2, as the code has it: an iteration that changes the regime either
    enters the meal override, and then the dwell duration is kept as it was
    and the engine is not consulted, or it leaves the meal override or ends
    a dwell, and then the dwell duration is one drawn from the engine in
    that iteration. *)
Theorem dwell_redrawn_on_non_meal_transitions (s : Sim) (m : Machine G) :
  exists s' m',
    inclination_logic w deviceInstanceNumStr s m = (Ok s', m')
    /\ (regime s' <> regime s ->
        (regime s' = MealInclined
         /\ currentNonMealStateDurationSeconds s'
            = currentNonMealStateDurationSeconds s
         /\ gen m' = gen m)
        \/ (regime s' <> MealInclined
            /\ drawn_in_tick m (currentNonMealStateDurationSeconds s'))).
Proof.
  destruct (inclination_logic_cases w deviceInstanceNumStr s m)
    as [s' [m' [E C]]].
  exists s', m'. split; [exact E|]. intros Hreg.
  destruct C; unfold drawn_in_tick; cbn.
  - left. auto.
  - right. split; [discriminate | auto].
  - right. split; [discriminate | auto].
  - right. split; [discriminate | auto].
  - right. split; [discriminate | auto].
  - contradiction.
Qed.

End DwellRedraw.

(** C2 fails as stated: the first iteration of this run leaves FLAT for the
    meal override, yet the dwell duration after it is the 2700 s drawn at
    initialization, the engine has not been consulted, and 2700 s is not a
    duration the engine would have given in this iteration. *)
Lemma meal_entry_keeps_dwell_duration :
  exists s0 m0 s1 m1,
    run breakfast_world "1" "PatientBed1" "PatientBed/1/data" 0
      (boot breakfast_world) = (Ok s0, m0)
    /\ inclination_logic breakfast_world "1" s0 (after_vitals m0) = (Ok s1, m1)
    /\ regime s0 = Flat
    /\ regime s1 = MealInclined
    /\ currentNonMealStateDurationSeconds s0 = 2700
    /\ currentNonMealStateDurationSeconds s1 = 2700
    /\ gen m1 = gen (after_vitals m0)
    /\ ~ drawn_in_tick (after_vitals m0)
           (currentNonMealStateDurationSeconds s1).
Proof.
  eexists _, _, _, _.
  split; [vm_compute; reflexivity|].
  split; [vm_compute; reflexivity|].
  repeat (split; [reflexivity|]).
  unfold drawn_in_tick. vm_compute. intros [H | [H | H]]; discriminate.
Qed.

(** The other half on the same engine: leaving the meal override draws a
    new duration. *)
Example meal_exit_draws_dwell_duration :
  let w := example_world [14; 14] 8 30 None (fun _ => None) in
  exists s1 m1,
    inclination_logic w "1" example_in_meal (boot w) = (Ok s1, m1)
    /\ regime s1 = Flat
    /\ currentNonMealStateDurationSeconds s1 = 3540
    /\ gen m1 = [14].
Proof.
  eexists _, _. split; [vm_compute; reflexivity|]. repeat split.
Qed.

(** ** The serialized payload *)

Section PayloadLayout.

Variable to_chars : float -> string.

(** C3, as the code has it: the serialized payload of a telemetry record
    is 4-space-indented structured text whose keys appear in increasing
    key order: bedState, deviceId, heartRate, inclination, spo2, timestamp.
    Serialization raises [type_error] 316 instead when one of the three
    strings is not well-formed UTF-8. *)
Theorem toJson_keys_in_key_order (t : Telemetry) :
  toJson to_chars t =
    match dump_escaped (bedState t), dump_escaped (deviceId t),
          dump_escaped (timestamp t) with
    | Some bs, Some dev, Some ts => Ok (payload_in_key_order to_chars t dev ts bs)
    | _, _, _ => Throw (json_type_error 316)
    end.
Proof.
  unfold toJson, dump, payload_in_key_order, structured_text.
  cbn [json_index_assign map_insert_or_assign].
  cbn.
  unfold dump_quoted.
  destruct (dump_escaped (bedState t)) as [bs|]; [|reflexivity].
  destruct (dump_escaped (deviceId t)) as [dev|]; [|reflexivity].
  destruct (dump_escaped (timestamp t)) as [ts|]; reflexivity.
Qed.

End PayloadLayout.

(** C3 fails as stated: the payload of this record is the text in key
    order, and no choice of member values makes it a structured text whose
    keys run deviceId, timestamp, heartRate, spo2, inclination, bedState:
    its first member is bedState. *)
Lemma payload_keys_not_in_assignment_order :
  exists payload,
    toJson example_to_chars example_sample = Ok payload
    /\ payload =
         payload_in_key_order example_to_chars example_sample
           "PatientBed1" "2025-01-01T00:00:00+0000" "INCLINED"
    /\ ~ exists v1 v2 v3 v4 v5 v6,
           payload =
             structured_text 4
               [("deviceId", v1); ("timestamp", v2); ("heartRate", v3);
                ("spo2", v4); ("inclination", v5); ("bedState", v6)].
Proof.
  eexists. split; [vm_compute; reflexivity|]. split; [vm_compute; reflexivity|].
  intros [v1 [v2 [v3 [v4 [v5 [v6 E]]]]]].
  apply (f_equal (String.substring 0 8)) in E.
  vm_compute in E. discriminate.
Qed.

(** ** The theorems at concrete inputs *)

(** The meal rule at 08:05, from the initial FLAT state. *)
Lemma meal_window_forces_meal_incline_witness :
  in_meal_window (tick_local_time breakfast_time_world
                    (boot breakfast_time_world))
  /\ exists s' t m',
       build_sample breakfast_time_world "1" "PatientBed1" example_flat
         (boot breakfast_time_world) = (Ok (s', t), m')
       /\ currentInclination s' = 60%float
       /\ currentInclinationState s' = INCLINED
       /\ inclination t = 60%float
       /\ bedState t = "INCLINED".
Proof.
  assert (H : in_meal_window (tick_local_time breakfast_time_world
                                (boot breakfast_time_world))).
  { exists (8, 0). vm_compute. intuition discriminate. }
  split; [exact H|].
  exact (meal_window_forces_meal_incline breakfast_time_world "1"
           "PatientBed1" example_flat (boot breakfast_time_world) H).
Defined.

(** Leaving the override at 08:30. *)
Lemma meal_exit_resets_to_flat_witness :
  inMealInclineOverride example_in_meal = true
  /\ ~ in_meal_window (tick_local_time after_breakfast_world
                         (boot after_breakfast_world))
  /\ exists s' m',
       inclination_logic after_breakfast_world "1" example_in_meal
         (boot after_breakfast_world) = (Ok s', m')
       /\ currentInclinationState s' = FLAT
       /\ currentInclination s' = 0%float
       /\ currentNonMealStateDurationSeconds s'
          = (45 + fst (flat_duration_rand_addon
                         (gen (boot after_breakfast_world)))) * 60
       /\ 0 <= fst (flat_duration_rand_addon
                      (gen (boot after_breakfast_world))) < 15
       /\ lastNonMealStateChangeTime s'
          = tick_steady_time after_breakfast_world (boot after_breakfast_world)
       /\ inMealInclineOverride s' = false.
Proof.
  assert (H : ~ in_meal_window (tick_local_time after_breakfast_world
                                  (boot after_breakfast_world))).
  { intros H. apply is_currently_meal_time_slot_spec in H.
    vm_compute in H. discriminate. }
  split; [reflexivity|]. split; [exact H|].
  exact (meal_exit_resets_to_flat after_breakfast_world "1" example_in_meal
           (boot after_breakfast_world) eq_refl H).
Defined.

(** The expired FLAT dwell at 23:00 with the draw 0.5: FLAT again, for
    52 minutes. *)
Lemma flat_dwell_expiry_witness :
  ~ in_meal_window (tick_local_time night_world night_machine)
  /\ duration_cast_seconds
       (tick_steady_time night_world night_machine
        - lastNonMealStateChangeTime example_flat)
     >= currentNonMealStateDurationSeconds example_flat
  /\ PrimFloat.ltb (fst (probability_dist (gen night_machine))) 0.2 = false
  /\ exists s' m',
       inclination_logic night_world "1" example_flat night_machine
         = (Ok s', m')
       /\ currentInclinationState s' = FLAT
       /\ currentInclination s' = 0%float
       /\ currentNonMealStateDurationSeconds s' = 3120
       /\ lastNonMealStateChangeTime s' = 3000000000000.
Proof.
  assert (H : ~ in_meal_window (tick_local_time night_world night_machine)).
  { intros H. apply is_currently_meal_time_slot_spec in H.
    vm_compute in H. discriminate. }
  assert (Hel : duration_cast_seconds
                  (tick_steady_time night_world night_machine
                   - lastNonMealStateChangeTime example_flat)
                >= currentNonMealStateDurationSeconds example_flat).
  { vm_compute. discriminate. }
  split; [exact H|]. split; [exact Hel|]. split; [vm_compute; reflexivity|].
  destruct (flat_dwell_expiry night_world "1" example_flat night_machine
              H eq_refl eq_refl Hel) as [s' [m' [E [Hlast Hcase]]]].
  exists s', m'. split; [exact E|].
  vm_compute in Hcase. destruct Hcase as [Hs [Hi [Hd _]]].
  repeat split; assumption.
Defined.

(** A refused connection, with three loop iterations allowed. *)
Lemma connect_failure_exits_with_1_witness :
  (2 <= List.length ["patientbedsimulation"; "1"])%nat
  /\ connect_outcome refused_world
     = Some "MQTT error [-1]: TCP/TLS connect failure"
  /\ exists m',
       main refused_world 3 ["patientbedsimulation"; "1"] (boot refused_world)
         = (Ok (Some 1), m')
       /\ publish_calls m' = 0%nat
       /\ gen m' = [3; 500; 500].
Proof.
  assert (Hargc : (2 <= List.length ["patientbedsimulation"; "1"])%nat)
    by (simpl; lia).
  split; [exact Hargc|]. split; [reflexivity|].
  destruct (connect_failure_exits_with_1 refused_world 3
              ["patientbedsimulation"; "1"] (boot refused_world)
              "MQTT error [-1]: TCP/TLS connect failure" Hargc eq_refl)
    as [m' [ts0 [ts1 [ts2 [ts3 [E [Hp [Hg _]]]]]]]].
  exists m'. split; [exact E|]. split; [exact Hp | exact Hg].
Defined.

(** A failed first publish at 09:00: the iteration ends with the
    simulation variables it started from. *)
Lemma publish_failure_is_not_fatal_witness :
  exists st m1 payload,
    build_sample flaky_world "1" "PatientBed1" example_flat (boot flaky_world)
      = (Ok st, m1)
    /\ toJson (json_to_chars flaky_world) (snd st) = Ok payload
    /\ publish_outcome flaky_world (publish_calls m1)
       = Some "MQTT error [-3]: Disconnected"
    /\ exists m2,
         loop_body flaky_world "1" "PatientBed1" "PatientBed/1/data"
           example_flat (boot flaky_world) = (Ok (fst st), m2)
         /\ gen m2 = gen m1
         /\ fst st = example_flat.
Proof.
  eexists _, _, _.
  split; [vm_compute; reflexivity|].
  split; [vm_compute; reflexivity|].
  split; [vm_compute; reflexivity|].
  destruct (publish_failure_is_not_fatal flaky_world "1" "PatientBed1"
              "PatientBed/1/data" example_flat (boot flaky_world) _ _ _
              "MQTT error [-3]: Disconnected" eq_refl eq_refl eq_refl)
    as [m2 [ts [pre [E [Hg _]]]]].
  exists m2. split; [exact E|]. split; [exact Hg | reflexivity].
Defined.

(** The second iteration of the breakfast run. *)
Lemma inclination_and_state_agree_witness :
  exists s m1 s' t m2,
    run breakfast_world "1" "PatientBed1" "PatientBed/1/data" 1
      (boot breakfast_world) = (Ok s, m1)
    /\ build_sample breakfast_world "1" "PatientBed1" s m1 = (Ok (s', t), m2)
    /\ currentInclinationState s' = INCLINED
    /\ currentInclination s' = 60%float
    /\ bedState t = "INCLINED"
    /\ inclination t = 60%float
    /\ (currentInclinationState s' = FLAT <-> currentInclination s' = 0%float).
Proof.
  eexists _, _, _, _, _.
  split; [vm_compute; reflexivity|].
  split; [vm_compute; reflexivity|].
  repeat (split; [reflexivity|]).
  refine (proj1 (proj2 (inclination_and_state_agree breakfast_world "1"
                          "PatientBed1" "PatientBed/1/data" 1 _ _ _
                          (boot breakfast_world) _ _ _ _))).
  - vm_compute; reflexivity.
  - vm_compute; reflexivity.
Defined.

(** ** Further properties of the inclination logic *)

Section InclinationEffects.

Context {G : Type} {RE : RandomEngine G}.
Variable w : World G.
Variable deviceInstanceNumStr : string.

Ltac run_logic :=
  unfold inclination_logic, bind, ret, draw, getCurrentTimestampLocal,
    system_clock_localtime, steady_clock_now, cout, cerr, emit;
  cbn beta iota zeta delta [fst snd gen system_clock_reads
    steady_clock_reads is_connected_calls publish_calls outputs].

(** Everything one run of the inclination logic does: the case it takes,
    the counters it moves, and the line it may write. *)
Lemma inclination_logic_effects (s : Sim) (m : Machine G) :
  exists s' m',
    inclination_logic w deviceInstanceNumStr s m = (Ok s', m')
    /\ TickCase w s m s' m'
    /\ steady_clock_reads m' = S (steady_clock_reads m)
    /\ publish_calls m' = publish_calls m
    /\ is_connected_calls m' = is_connected_calls m
    /\ ((regime s' = regime s /\ outputs m' = outputs m)
        \/ (regime s' <> regime s
            /\ exists line, outputs m' = (outputs m ++ [Cout line])%list)).
Proof.
  destruct (is_currently_meal_time_slot (tick_local_time w m)) eqn:Hmeal;
    [|destruct (inMealInclineOverride s) eqn:Hov;
      [|destruct (dwell_expired w s m) eqn:Hexp;
        [destruct (currentInclinationState s) eqn:Hst;
         [destruct (PrimFloat.ltb (fst (probability_dist (gen m)))
                      PROBABILITY_MINOR_INCLINE) eqn:Hp|]|]]];
    pose proof Hmeal as Hmeal'; try pose proof Hexp as Hexp';
    unfold tick_local_time in Hmeal';
    try unfold dwell_expired, tick_steady_time in Hexp'.
  - (* meal *)
    destruct (inMealInclineOverride s) eqn:Hov; run_logic;
      rewrite Hmeal', Hov; cbn; eexists _, _; (split; [reflexivity|]);
      (split; [now apply tick_meal|]); cbn; repeat (split; [reflexivity|]);
      unfold regime; rewrite Hov; cbn.
    + left. split; reflexivity.
    + right. split; [destruct (BedInclinationState_eqb _ _); discriminate|].
      eexists; reflexivity.
  - (* leaving the meal override *)
    run_logic; rewrite Hmeal', Hov; cbn. eexists _, _.
    split; [reflexivity|]. split; [now apply tick_meal_exit|]. cbn.
    repeat (split; [reflexivity|]). right. unfold regime. rewrite Hov. cbn.
    split; [discriminate | eexists; reflexivity].
  - (* FLAT to the minor incline *)
    run_logic; rewrite Hmeal', Hov, Hexp', Hst; cbn. rewrite Hp. cbn.
    eexists _, _. split; [reflexivity|].
    split; [now apply tick_flat_to_minor|]. cbn.
    repeat (split; [reflexivity|]). right. unfold regime.
    rewrite Hov, Hst. cbn. split; [discriminate | eexists; reflexivity].
  - (* FLAT stays FLAT *)
    run_logic; rewrite Hmeal', Hov, Hexp', Hst; cbn. rewrite Hp. cbn.
    eexists _, _. split; [reflexivity|].
    split; [now apply tick_flat_stays|]. cbn.
    repeat (split; [reflexivity|]). left. unfold regime.
    rewrite Hov, Hst. cbn. split; reflexivity.
  - (* the minor incline ends *)
    run_logic; rewrite Hmeal', Hov, Hexp', Hst; cbn.
    eexists _, _. split; [reflexivity|].
    split; [now apply tick_minor_to_flat|]. cbn.
    repeat (split; [reflexivity|]). right. unfold regime.
    rewrite Hov, Hst. cbn. split; [discriminate | eexists; reflexivity].
  - (* the dwell goes on *)
    run_logic; rewrite Hmeal', Hov, Hexp'.
    eexists _, _. split; [reflexivity|].
    split; [now apply tick_dwelling|]. cbn.
    repeat (split; [reflexivity|]). left. split; reflexivity.
Qed.

End InclinationEffects.

Section FurtherStateMachine.

Context {G : Type} {RE : RandomEngine G}.
Variable w : World G.
Variable deviceInstanceNumStr : string.

Ltac run_logic :=
  unfold inclination_logic, bind, ret, draw, getCurrentTimestampLocal,
    system_clock_localtime, steady_clock_now, cout, cerr, emit;
  cbn beta iota zeta delta [fst snd gen system_clock_reads
    steady_clock_reads is_connected_calls publish_calls outputs].

(** X1: when the minor incline has lasted its dwell (no meal window, no
    override, state INCLINED, the dwell duration elapsed), the inclination
    logic always returns the bed to FLAT at 0.0, without a probability
    draw: the new dwell is 45 plus a uniform integer in [0, 15) minutes,
    the timer restarts now, and one line "set to FLAT after minor incline"
    goes to the standard output. *)
Theorem minor_incline_ends_flat (s : Sim) (m : Machine G) :
  ~ in_meal_window (tick_local_time w m) ->
  inMealInclineOverride s = false ->
  currentInclinationState s = INCLINED ->
  duration_cast_seconds (tick_steady_time w m - lastNonMealStateChangeTime s)
    >= currentNonMealStateDurationSeconds s ->
  exists s' m' ts,
    inclination_logic w deviceInstanceNumStr s m = (Ok s', m')
    /\ currentInclinationState s' = FLAT
    /\ currentInclination s' = 0%float
    /\ currentNonMealStateDurationSeconds s'
       = (45 + fst (flat_duration_rand_addon (gen m))) * 60
    /\ 2700 <= currentNonMealStateDurationSeconds s' < 3600
    /\ lastNonMealStateChangeTime s' = tick_steady_time w m
    /\ inMealInclineOverride s' = false
    /\ gen m' = snd (flat_duration_rand_addon (gen m))
    /\ outputs m' =
         (outputs m ++
          [Cout ("[" ++ ts ++ "] Bed " ++ deviceInstanceNumStr
                   ++ " set to FLAT after minor incline.")])%list.
Proof.
  intros Hwin Hov Hst Hel. apply not_meal_time_slot in Hwin.
  assert (Hexp : (duration_cast_seconds
                    (steady_clock w (steady_clock_reads m)
                     - lastNonMealStateChangeTime s)
                  >=? currentNonMealStateDurationSeconds s) = true).
  { rewrite Z.geb_leb. apply Z.leb_le. unfold tick_steady_time in Hel. lia. }
  unfold tick_local_time in Hwin. unfold tick_steady_time.
  run_logic. rewrite Hwin, Hov, Hexp, Hst.
  cbn beta iota zeta delta [BedInclinationState_eqb fst snd gen
    system_clock_reads steady_clock_reads is_connected_calls publish_calls
    outputs].
  eexists _, _, _. split; [reflexivity|].
  cbn [currentInclinationState currentInclination
       lastNonMealStateChangeTime currentNonMealStateDurationSeconds
       inMealInclineOverride gen outputs].
  pose proof (flat_addon_range (gen m)) as Hr.
  unfold FLAT_STATE_BASE_DURATION_MINUTES.
  repeat split; try reflexivity; lia.
Qed.

(** X2: while the dwell has not elapsed (no meal window, no override), the
    inclination logic changes none of the simulation variables, takes
    nothing from the engine and writes nothing. *)
Theorem unexpired_dwell_changes_nothing (s : Sim) (m : Machine G) :
  ~ in_meal_window (tick_local_time w m) ->
  inMealInclineOverride s = false ->
  duration_cast_seconds (tick_steady_time w m - lastNonMealStateChangeTime s)
    < currentNonMealStateDurationSeconds s ->
  exists m',
    inclination_logic w deviceInstanceNumStr s m = (Ok s, m')
    /\ gen m' = gen m
    /\ outputs m' = outputs m.
Proof.
  intros Hwin Hov Hel. apply not_meal_time_slot in Hwin.
  assert (Hexp : (duration_cast_seconds
                    (steady_clock w (steady_clock_reads m)
                     - lastNonMealStateChangeTime s)
                  >=? currentNonMealStateDurationSeconds s) = false).
  { rewrite Z.geb_leb. apply Z.leb_gt. unfold tick_steady_time in Hel. lia. }
  unfold tick_local_time in Hwin.
  run_logic. rewrite Hwin, Hov, Hexp.
  eexists. repeat split; reflexivity.
Qed.

(** X3: after the inclination logic of any iteration, the meal-override
    flag says exactly whether the local time read in that iteration lies in
    a meal window. *)
Theorem override_flag_tracks_meal_window (s : Sim) (m : Machine G) :
  exists s' m',
    inclination_logic w deviceInstanceNumStr s m = (Ok s', m')
    /\ inMealInclineOverride s'
       = is_currently_meal_time_slot (tick_local_time w m).
Proof.
  destruct (inclination_logic_effects w deviceInstanceNumStr s m)
    as [s' [m' [E [C _]]]].
  exists s', m'. split; [exact E|].
  destruct C; cbn [inMealInclineOverride]; congruence.
Qed.

(** X4: inside a meal window, an iteration that starts under the override
    with the bed already INCLINED at 60.0 is a no-op: the simulation
    variables stay as they are, nothing is drawn and nothing is written
    (the "INCLINED for meal" line is written on entry only). *)
Theorem meal_override_is_idempotent (s : Sim) (m : Machine G) :
  in_meal_window (tick_local_time w m) ->
  inMealInclineOverride s = true ->
  currentInclinationState s = INCLINED ->
  currentInclination s = 60%float ->
  exists m',
    inclination_logic w deviceInstanceNumStr s m = (Ok s, m')
    /\ gen m' = gen m
    /\ outputs m' = outputs m.
Proof.
  intros Hwin Hov Hst Hincl.
  apply is_currently_meal_time_slot_spec in Hwin.
  unfold tick_local_time in Hwin.
  destruct s as [st incl last dur ov]. cbn in Hov, Hst, Hincl. subst.
  run_logic. rewrite Hwin. cbn.
  eexists. repeat split; reflexivity.
Qed.

(** X5: the inclination logic writes a line exactly when it changes the
    regime (FLAT, minor incline, meal incline): one line to the standard
    output when the regime changes, nothing otherwise; it never writes to
    the error stream. *)
Theorem log_line_iff_regime_changes (s : Sim) (m : Machine G) :
  exists s' m',
    inclination_logic w deviceInstanceNumStr s m = (Ok s', m')
    /\ ((regime s' = regime s /\ outputs m' = outputs m)
        \/ (regime s' <> regime s
            /\ exists line, outputs m' = (outputs m ++ [Cout line])%list)).
Proof.
  destruct (inclination_logic_effects w deviceInstanceNumStr s m)
    as [s' [m' [E [_ [_ [_ [_ H]]]]]]].
  exists s', m'. split; assumption.
Qed.

(** X6: for a positive dwell duration, the test of line 268 succeeds
    exactly when the steady clock has advanced by at least that many whole
    seconds since the last non-meal change: the truncation of the elapsed
    time to seconds never ends a dwell early. *)
Theorem dwell_expires_after_whole_seconds (s : Sim) (m : Machine G) :
  0 < currentNonMealStateDurationSeconds s ->
  (dwell_expired w s m = true <->
   currentNonMealStateDurationSeconds s * steady_ticks_per_second
     <= tick_steady_time w m - lastNonMealStateChangeTime s).
Proof.
  intros Hpos. unfold dwell_expired, duration_cast_seconds.
  set (d := tick_steady_time w m - lastNonMealStateChangeTime s).
  set (c := currentNonMealStateDurationSeconds s) in *.
  unfold steady_ticks_per_second.
  rewrite Z.geb_leb, Z.leb_le.
  pose proof (Z.quot_rem' d 1000000000) as Hqr.
  destruct (Z_le_gt_dec 0 d) as [Hd | Hd].
  - pose proof (Z.rem_bound_pos d 1000000000 Hd ltac:(lia)). split; nia.
  - pose proof (Z.rem_bound_pos_neg d 1000000000 ltac:(lia) ltac:(lia)).
    split; nia.
Qed.

End FurtherStateMachine.

(** X7: with the minute of the local time in its range 0..59, the
    meal-window test of lines 232-246 holds exactly during the first half
    hour of the hours 8, 12 and 18. *)
Theorem meal_windows_are_three_half_hours (t : tm) :
  0 <= tm_min t <= 59 ->
  (is_currently_meal_time_slot t = true <->
   (tm_hour t = 8 \/ tm_hour t = 12 \/ tm_hour t = 18) /\ tm_min t < 30).
Proof.
  intros Hm. rewrite is_currently_meal_time_slot_spec.
  unfold in_meal_window, minutes_since_midnight, meal_start_times. split.
  - intros [st [Hin Hr]]. simpl in Hin.
    destruct Hin as [<- | [<- | [<- | []]]]; simpl in Hr; lia.
  - intros [[Hh | [Hh | Hh]] Hlt].
    + exists (8, 0). simpl. split; [auto | lia].
    + exists (12, 0). simpl. split; [auto | lia].
    + exists (18, 0). simpl. split; [auto | lia].
Qed.

(** ** Further properties of the publish loop *)

Section LoopEffects.

Context {G : Type} {RE : RandomEngine G}.
Variable w : World G.
Variables deviceInstanceNumStr clientId topic : string.

(** Serialization either gives a payload or raises [type_error] 316: the
    assignments of lines 132-137 cannot fail. *)
Lemma toJson_Ok_or_316 (to_chars : float -> string) (t : Telemetry) :
  (exists payload, toJson to_chars t = Ok payload)
  \/ toJson to_chars t = Throw (json_type_error 316).
Proof.
  unfold toJson, dump. cbn [json_index_assign map_insert_or_assign].
  cbn. unfold dump_quoted.
  destruct (dump_escaped (bedState t)); [|right; reflexivity].
  destruct (dump_escaped (deviceId t)); [|right; reflexivity].
  destruct (dump_escaped (timestamp t)); [|right; reflexivity].
  left. eexists. reflexivity.
Qed.

(** Serialization succeeds when the three strings are well-formed UTF-8. *)
Lemma toJson_succeeds (to_chars : float -> string) (t : Telemetry) :
  dump_escaped (bedState t) <> None ->
  dump_escaped (deviceId t) <> None ->
  dump_escaped (timestamp t) <> None ->
  exists payload, toJson to_chars t = Ok payload.
Proof.
  intros Hb Hd Ht. unfold toJson, dump.
  cbn [json_index_assign map_insert_or_assign]. cbn. unfold dump_quoted.
  destruct (dump_escaped (bedState t)); [|contradiction].
  destruct (dump_escaped (deviceId t)); [|contradiction].
  destruct (dump_escaped (timestamp t)); [|contradiction].
  eexists. reflexivity.
Qed.

(** Lines 221-292 on the machine: what they leave in the counters and what
    they write. *)
Lemma build_sample_effects (s : Sim) (m : Machine G) :
  exists s' t m' m0,
    build_sample w deviceInstanceNumStr clientId s m = (Ok (s', t), m')
    /\ TickCase w s (after_vitals m) s' m0
    /\ deviceId t = clientId
    /\ timestamp t = strftime_iso8601 w (system_clock_local w
                                           (system_clock_reads m0))
    /\ (bedState t = "FLAT" \/ bedState t = "INCLINED")
    /\ steady_clock_reads m' = S (steady_clock_reads m)
    /\ publish_calls m' = publish_calls m
    /\ is_connected_calls m' = is_connected_calls m
    /\ (outputs m' = outputs m
        \/ exists line, outputs m' = (outputs m ++ [Cout line])%list).
Proof.
  destruct (inclination_logic_effects w deviceInstanceNumStr s (after_vitals m))
    as [s' [m0 [E [C [Hst [Hp [Hc Hout]]]]]]].
  unfold build_sample, bind, draw.
  cbn beta iota zeta delta [fst snd gen system_clock_reads
    steady_clock_reads is_connected_calls publish_calls outputs].
  change {| gen := snd (spo2_dist (snd (heart_rate_dist (gen m))));
            system_clock_reads := system_clock_reads m;
            steady_clock_reads := steady_clock_reads m;
            is_connected_calls := is_connected_calls m;
            publish_calls := publish_calls m;
            outputs := outputs m |} with (after_vitals m).
  rewrite E. unfold Telemetry_new, bind, ret, getCurrentTimestampLocal,
    system_clock_localtime.
  cbn beta iota zeta delta [fst snd gen system_clock_reads
    steady_clock_reads is_connected_calls publish_calls outputs].
  eexists _, _, _, m0. split; [reflexivity|]. split; [exact C|].
  cbn [deviceId timestamp bedState gen system_clock_reads steady_clock_reads
       is_connected_calls publish_calls outputs].
  split; [reflexivity|]. split; [reflexivity|].
  split; [destruct (currentInclinationState s'); cbn; auto|].
  split; [exact Hst|]. split; [exact Hp|]. split; [exact Hc|].
  destruct Hout as [[_ H] | [_ [line H]]]; [left | right; exists line];
    exact H.
Qed.

(** Lines 298-305 on the machine: one query of the connection, one publish
    call, and the lines written around it. *)
Lemma publish_attempt_effects (payload : string) (m : Machine G) :
  exists m' ts1 ts2,
    publish_attempt w topic payload m = (Ok tt, m')
    /\ gen m' = gen m
    /\ steady_clock_reads m' = steady_clock_reads m
    /\ publish_calls m' = S (publish_calls m)
    /\ is_connected_calls m' = S (is_connected_calls m)
    /\ outputs m' =
         (outputs m
          ++ (if is_connected w (is_connected_calls m) then []
              else [Cerr ("[" ++ ts1
                            ++ "] Client not connected. Retrying connection by Paho...")])
          ++ [MqttPublish topic payload QOS]
          ++ match publish_outcome w (publish_calls m) with
             | Some what => [Cerr ("[" ++ ts2 ++ "] Error publishing: " ++ what)]
             | None => []
             end)%list.
Proof.
  unfold publish_attempt, try_catch_mqtt, getCurrentTimestampLocal,
    client_is_connected, client_publish, system_clock_localtime, cerr, emit,
    bind, ret.
  cbn beta iota zeta delta [fst snd gen system_clock_reads
    steady_clock_reads is_connected_calls publish_calls outputs].
  destruct (is_connected w (is_connected_calls m));
    cbn [negb]; cbv beta iota;
    cbn beta iota zeta delta [fst snd gen system_clock_reads
      steady_clock_reads is_connected_calls publish_calls outputs];
    destruct (publish_outcome w (publish_calls m));
    cbn beta iota zeta delta [fst snd gen system_clock_reads
      steady_clock_reads is_connected_calls publish_calls outputs].
  1, 2: eexists _, "",
          (strftime_iso8601 w (system_clock_local w (system_clock_reads m))).
  3, 4: eexists _,
          (strftime_iso8601 w (system_clock_local w (system_clock_reads m))),
          (strftime_iso8601 w
             (system_clock_local w (S (system_clock_reads m)))).
  all: (split; [reflexivity|]);
    cbn [gen steady_clock_reads publish_calls is_connected_calls outputs];
    repeat (split; [reflexivity|]);
    repeat rewrite <- app_assoc; cbn [app]; reflexivity.
Qed.

Lemma outputs_extended_refl (P : Output -> Prop) (m m' : Machine G) :
  outputs m' = outputs m -> outputs_extended P m m'.
Proof.
  intros E. exists []. rewrite E, app_nil_r. split; [reflexivity | constructor].
Qed.

Lemma outputs_extended_trans (P : Output -> Prop) (m1 m2 m3 : Machine G) :
  outputs_extended P m1 m2 -> outputs_extended P m2 m3 ->
  outputs_extended P m1 m3.
Proof.
  intros [d1 [E1 F1]] [d2 [E2 F2]]. exists (d1 ++ d2)%list.
  rewrite E2, E1, app_assoc. split; [reflexivity | now apply Forall_app].
Qed.

Lemma outputs_extended_by (P : Output -> Prop) (m m' : Machine G)
    (delta : list Output) :
  outputs m' = (outputs m ++ delta)%list -> Forall P delta ->
  outputs_extended P m m'.
Proof. intros E F. exists delta. split; assumption. Qed.

Local Abbreviation loop_out :=
  (loop_output (json_to_chars w) clientId topic).

(** One iteration on the machine.  It ends normally exactly when the
    telemetry record serializes; all it writes is allowed by
    [loop_output]. *)
Lemma loop_body_effects (s : Sim) (m : Machine G) :
  exists s' t m1 m0 m',
    build_sample w deviceInstanceNumStr clientId s m = (Ok (s', t), m1)
    /\ TickCase w s (after_vitals m) s' m0
    /\ deviceId t = clientId
    /\ timestamp t = strftime_iso8601 w (system_clock_local w
                                           (system_clock_reads m0))
    /\ (bedState t = "FLAT" \/ bedState t = "INCLINED")
    /\ outputs_extended loop_out m m'
    /\ ((exists payload,
           toJson (json_to_chars w) t = Ok payload
           /\ loop_body w deviceInstanceNumStr clientId topic s m = (Ok s', m')
           /\ steady_clock_reads m' = S (steady_clock_reads m)
           /\ publish_calls m' = S (publish_calls m)
           /\ is_connected_calls m' = S (is_connected_calls m))
        \/ (toJson (json_to_chars w) t = Throw (json_type_error 316)
            /\ loop_body w deviceInstanceNumStr clientId topic s m
               = (Throw (json_type_error 316), m')
            /\ publish_calls m' = publish_calls m)).
Proof.
  destruct (build_sample_effects s m)
    as [s' [t [m1 [m0 [Eb [C [Hd [Hts [Hbs [Hst [Hp [Hc Hout]]]]]]]]]]]].
  assert (Hext1 : outputs_extended loop_out m m1).
  { destruct Hout as [H | [line H]].
    - now apply outputs_extended_refl.
    - apply (outputs_extended_by _ _ _ [Cout line] H).
      constructor; [exact I | constructor]. }
  destruct (toJson_Ok_or_316 (json_to_chars w) t) as [[payload Ej] | Ej].
  - destruct (publish_attempt_effects payload m1)
      as [m2 [ts1 [ts2 [Ep [_ [Hst2 [Hp2 [Hc2 Hout2]]]]]]]].
    pose (m' :=
         {| gen := gen m2;
            system_clock_reads := system_clock_reads m2;
            steady_clock_reads := steady_clock_reads m2;
            is_connected_calls := is_connected_calls m2;
            publish_calls := publish_calls m2;
            outputs := (outputs m2 ++ [SleepFor DATA_SEND_INTERVAL_SECONDS])%list
         |}).
    assert (Hbody :
      loop_body w deviceInstanceNumStr clientId topic s m = (Ok s', m')).
    { unfold loop_body, bind. rewrite Eb. unfold lift_result.
      cbn [fst snd]. rewrite Ej, Ep. reflexivity. }
    exists s', t, m1, m0, m'.
    split; [exact Eb|]. split; [exact C|]. split; [exact Hd|].
    split; [exact Hts|]. split; [exact Hbs|].
    split.
    + apply (outputs_extended_trans _ m m1 _ Hext1).
      eapply outputs_extended_by.
      * unfold m'. cbn [outputs]. rewrite Hout2. rewrite <- !app_assoc.
        reflexivity.
      * apply Forall_app. split; [|apply Forall_app; split;
                                     [|apply Forall_app; split]].
        -- destruct (is_connected w (is_connected_calls m1));
             constructor; [exact I | constructor].
        -- constructor; [|constructor]. unfold loop_output.
           split; [reflexivity|]. split; [reflexivity|].
           exists t. auto.
        -- destruct (publish_outcome w (publish_calls m1));
             constructor; [exact I | constructor].
        -- constructor; [reflexivity | constructor].
    + left. exists payload. split; [exact Ej|]. split; [exact Hbody|].
      unfold m'. cbn [steady_clock_reads publish_calls is_connected_calls].
      rewrite Hst2, Hp2, Hc2, Hst, Hp, Hc. auto.
  - exists s', t, m1, m0, m1.
    split; [exact Eb|]. split; [exact C|]. split; [exact Hd|].
    split; [exact Hts|]. split; [exact Hbs|]. split; [exact Hext1|].
    right. split; [exact Ej|]. split; [|exact Hp].
    unfold loop_body, bind. rewrite Eb. unfold lift_result.
    cbn [fst snd]. rewrite Ej. reflexivity.
Qed.

(** The first [n] iterations on the machine. *)
Lemma loop_effects (n : nat) (s : Sim) (m : Machine G) :
  exists r m',
    loop w n deviceInstanceNumStr clientId topic s m = (r, m')
    /\ outputs_extended loop_out m m'
    /\ (r = Throw (json_type_error 316)
        \/ exists s',
             r = Ok s'
             /\ steady_clock_reads m' = (steady_clock_reads m + n)%nat
             /\ publish_calls m' = (publish_calls m + n)%nat
             /\ is_connected_calls m' = (is_connected_calls m + n)%nat).
Proof.
  revert s m. induction n as [|n IH]; intros s m.
  - exists (Ok s), m. cbn. unfold ret. split; [reflexivity|].
    split; [now apply outputs_extended_refl|].
    right. exists s. rewrite !Nat.add_0_r. auto.
  - destruct (loop_body_effects s m)
      as [s1 [t [m1 [m0 [m2 [_ [_ [_ [_ [_ [Hext Hcase]]]]]]]]]]].
    destruct Hcase as [[payload [_ [Eb [Hst [Hp Hc]]]]] | [_ [Eb _]]].
    + destruct (IH s1 m2) as [r [m3 [El [Hext' Hr]]]].
      exists r, m3. cbn [loop]. unfold bind at 1. rewrite Eb.
      split; [exact El|].
      split; [exact (outputs_extended_trans _ _ _ _ Hext Hext')|].
      destruct Hr as [Hr | [s' [Hr [H1 [H2 H3]]]]]; [left; exact Hr|].
      right. exists s'. rewrite H1, H2, H3, Hst, Hp, Hc.
      repeat split; [exact Hr | lia | lia | lia].
    + exists (Throw (json_type_error 316)), m2.
      cbn [loop]. unfold bind at 1. rewrite Eb.
      split; [reflexivity|]. split; [exact Hext|]. left. reflexivity.
Qed.

End LoopEffects.

Section MainProperties.

Context {G : Type} {RE : RandomEngine G}.
Variable w : World G.

(** Lines 199-204 when the connect succeeds. *)
Lemma connect_accepted (client_id : string) (m : Machine G)
    (handler : string -> M G bool) :
  connect_outcome w = None ->
  try_catch_mqtt (client_connect w client_id ;;; ret true) handler m
  = (Ok true, add_output (MqttConnect SERVER_ADDRESS client_id) m).
Proof.
  intros Hconn. unfold try_catch_mqtt, client_connect.
  unfold bind at 1. unfold bind at 1. unfold emit at 1. rewrite Hconn.
  reflexivity.
Qed.

(** [main] from its first line to the loop, when an argument is given and
    the connect succeeds. *)
Lemma main_after_connect (n : nat) (argv : list string) (m : Machine G) :
  (2 <= List.length argv)%nat ->
  connect_outcome w = None ->
  exists ts0 ts1 ts2 s0 m0,
    outputs m0 =
      (outputs m ++
       [Cout ("[" ++ ts0 ++ "] Starting Patient Bed Simulator: "
                ++ CLIENT_ID_PREFIX ++ List.nth 1 argv "");
        Cout ("[" ++ ts1 ++ "] Publishing to topic: "
                ++ TOPIC_PREFIX ++ List.nth 1 argv "" ++ "/data");
        Cout ("[" ++ ts2 ++ "] Connecting to MQTT broker at "
                ++ SERVER_ADDRESS ++ "...");
        MqttConnect SERVER_ADDRESS (CLIENT_ID_PREFIX ++ List.nth 1 argv "")])%list
    /\ publish_calls m0 = publish_calls m
    /\ main w n argv m =
         (match fst (loop w n (List.nth 1 argv "")
                       (CLIENT_ID_PREFIX ++ List.nth 1 argv "")
                       (TOPIC_PREFIX ++ List.nth 1 argv "" ++ "/data") s0 m0)
          with
          | Ok _ => Ok None
          | Throw e => Throw e
          end,
          snd (loop w n (List.nth 1 argv "")
                 (CLIENT_ID_PREFIX ++ List.nth 1 argv "")
                 (TOPIC_PREFIX ++ List.nth 1 argv "" ++ "/data") s0 m0)).
Proof.
  intros Hargc Hconn. unfold main.
  assert (Hlt : (Z.of_nat (List.length argv) <? 2) = false)
    by (apply Z.ltb_ge; lia).
  rewrite Hlt.
  repeat (rewrite bind_getCurrentTimestampLocal; cbv beta;
          rewrite bind_cout; cbv beta).
  rewrite (bind_Ok _ _ _ _ _ (connect_accepted _ _ _ Hconn)).
  cbv beta iota.
  match goal with
  | |- context [bind (simulation_start w) _ ?m3] =>
      destruct (simulation_start_eq w m3) as [m0 [E0 [Ho Hp]]];
      rewrite (bind_Ok _ _ _ _ _ E0)
  end.
  match type of E0 with
  | _ = (Ok ?s0, _) => eexists _, _, _, s0, m0
  end.
  split; [|split].
  - rewrite Ho. cbn [outputs add_output bump_system_clock].
    repeat rewrite <- app_assoc. cbn [app]. reflexivity.
  - rewrite Hp. reflexivity.
  - unfold bind, ret.
    destruct (loop w n _ _ _ _ m0) as [[s' | e] m']; reflexivity.
Qed.

(** X8: started with the program name alone (argc = 1), [main] writes
    the usage line with the program name to the error stream and returns
    1: it reads no clock, does not touch the engine and makes no connection
    attempt, whatever the world. *)
Theorem missing_argument_exits_with_1 (n : nat) (argv : list string)
    (m : Machine G) :
  List.length argv = 1%nat ->
  main w n argv m =
    (Ok (Some 1),
     {| gen := gen m;
        system_clock_reads := system_clock_reads m;
        steady_clock_reads := steady_clock_reads m;
        is_connected_calls := is_connected_calls m;
        publish_calls := publish_calls m;
        outputs :=
          (outputs m ++
           [Cerr ("Usage: " ++ List.nth 0 argv ""
                    ++ " <device_instance_number (e.g., 1 or 2)>")])%list |}).
Proof.
  intros Hargc. unfold main.
  assert (Hlt : (Z.of_nat (List.length argv) <? 2) = true)
    by (apply Z.ltb_lt; lia).
  rewrite Hlt. reflexivity.
Qed.

(** X9: once connected, [main] never returns an exit code: through any
    number of iterations it is either still in its loop or has been left by
    the JSON library's [type_error] 316, which nothing catches.  The
    return of 0 after the loop is unreachable. *)
Theorem main_does_not_return_once_connected (n : nat) (argv : list string)
    (m : Machine G) :
  (2 <= List.length argv)%nat ->
  connect_outcome w = None ->
  fst (main w n argv m) = Ok None
  \/ fst (main w n argv m) = Throw (json_type_error 316).
Proof.
  intros Hargc Hconn.
  destruct (main_after_connect n argv m Hargc Hconn)
    as [ts0 [ts1 [ts2 [s0 [m0 [_ [_ E]]]]]]].
  rewrite E. cbn [fst].
  destruct (loop_effects w (List.nth 1 argv "")
              (CLIENT_ID_PREFIX ++ List.nth 1 argv "")
              (TOPIC_PREFIX ++ List.nth 1 argv "" ++ "/data") n s0 m0)
    as [r [m' [El [_ [Hr | [s' [Hr _]]]]]]]; rewrite El; cbn [fst]; subst r.
  - right. reflexivity.
  - left. reflexivity.
Qed.

(** X10: with a device argument and a successful connect, everything
    [main] emits through any number of iterations is: the three start-up
    lines, one connect to the server under the client id [PatientBed<N>],
    and then only log lines, publishes of a serialized telemetry record of
    that device to the topic [PatientBed/<N>/data] at QoS 1, and sleeps of 5
    seconds.  It connects once and never disconnects. *)
Theorem main_trace_once_connected (n : nat) (argv : list string)
    (m : Machine G) :
  (2 <= List.length argv)%nat ->
  connect_outcome w = None ->
  exists ts0 ts1 ts2 delta,
    outputs (snd (main w n argv m)) =
      (outputs m ++
       [Cout ("[" ++ ts0 ++ "] Starting Patient Bed Simulator: "
                ++ CLIENT_ID_PREFIX ++ List.nth 1 argv "");
        Cout ("[" ++ ts1 ++ "] Publishing to topic: "
                ++ TOPIC_PREFIX ++ List.nth 1 argv "" ++ "/data");
        Cout ("[" ++ ts2 ++ "] Connecting to MQTT broker at "
                ++ SERVER_ADDRESS ++ "...");
        MqttConnect SERVER_ADDRESS (CLIENT_ID_PREFIX ++ List.nth 1 argv "")]
       ++ delta)%list
    /\ Forall (loop_output (json_to_chars w)
                 (CLIENT_ID_PREFIX ++ List.nth 1 argv "")
                 (TOPIC_PREFIX ++ List.nth 1 argv "" ++ "/data")) delta.
Proof.
  intros Hargc Hconn.
  destruct (main_after_connect n argv m Hargc Hconn)
    as [ts0 [ts1 [ts2 [s0 [m0 [Ho [_ E]]]]]]].
  destruct (loop_effects w (List.nth 1 argv "")
              (CLIENT_ID_PREFIX ++ List.nth 1 argv "")
              (TOPIC_PREFIX ++ List.nth 1 argv "" ++ "/data") n s0 m0)
    as [r [m' [El [[delta [Hd HF]] _]]]].
  exists ts0, ts1, ts2, delta. rewrite E, El. cbn [snd].
  rewrite Hd, Ho, <- app_assoc. split; [reflexivity | exact HF].
Qed.

(** X11: when the client id and every timestamp the C library formats are
    well-formed UTF-8, no publish failure and no connection state stops the
    loop: for every [n], [main] is still in its loop after [n] iterations
    and has made exactly [n] publish calls. *)
Theorem main_loops_forever (n : nat) (argv : list string) (m : Machine G) :
  (2 <= List.length argv)%nat ->
  connect_outcome w = None ->
  dump_escaped (CLIENT_ID_PREFIX ++ List.nth 1 argv "") <> None ->
  (forall t : tm, dump_escaped (strftime_iso8601 w t) <> None) ->
  fst (main w n argv m) = Ok None
  /\ publish_calls (snd (main w n argv m)) = (publish_calls m + n)%nat.
Proof.
  intros Hargc Hconn Hid Hts.
  destruct (main_after_connect n argv m Hargc Hconn)
    as [ts0 [ts1 [ts2 [s0 [m0 [_ [Hp E]]]]]]].
  rewrite E. cbn [fst snd]. rewrite <- Hp. clear E Hp.
  set (dev := List.nth 1 argv "") in *.
  set (cid := CLIENT_ID_PREFIX ++ dev) in *.
  set (topic := TOPIC_PREFIX ++ dev ++ "/data").
  revert s0 m0. induction n as [|n IH]; intros s0 m0.
  - cbn. rewrite Nat.add_0_r. auto.
  - destruct (loop_body_effects w dev cid topic s0 m0)
      as [s1 [t [m1 [m2 [m3 [_ [_ [Hd [Ht [Hb [_ Hcase]]]]]]]]]]].
    assert (Hok : exists payload, toJson (json_to_chars w) t = Ok payload).
    { apply toJson_succeeds.
      - destruct Hb as [-> | ->]; vm_compute; discriminate.
      - rewrite Hd. exact Hid.
      - rewrite Ht. apply Hts. }
    destruct Hok as [payload Hok].
    destruct Hcase as [[payload' [_ [Eb [_ [Hp _]]]]] | [Ej _]];
      [|rewrite Ej in Hok; discriminate].
    cbn [loop]. rewrite !(bind_Ok _ _ _ _ _ Eb).
    destruct (IH s1 m3) as [H1 H2]. split; [exact H1|].
    rewrite H2, Hp. lia.
Qed.

End MainProperties.

Section IterationShape.

Context {G : Type} {RE : RandomEngine G}.
Variable w : World G.
Variables deviceInstanceNumStr clientId topic : string.

(** X12: every iteration that ends normally has emitted, in this order:
    at most log lines, then exactly one publish to the topic at QoS 1,
    then at most log lines, then one sleep of the send interval as its
    last action; and it has made exactly one publish call. *)
Theorem iteration_publishes_then_sleeps (s s' : Sim) (m m' : Machine G) :
  loop_body w deviceInstanceNumStr clientId topic s m = (Ok s', m') ->
  exists pre payload post,
    outputs m' =
      (outputs m ++ pre ++ [MqttPublish topic payload QOS] ++ post
       ++ [SleepFor DATA_SEND_INTERVAL_SECONDS])%list
    /\ Forall is_log_line pre
    /\ Forall is_log_line post
    /\ publish_calls m' = S (publish_calls m).
Proof.
  intros E.
  destruct (build_sample_effects w deviceInstanceNumStr clientId s m)
    as [s1 [t [m1 [m0 [Eb [_ [_ [_ [_ [_ [Hp [_ Hout]]]]]]]]]]]].
  unfold loop_body in E. rewrite (bind_Ok _ _ _ _ _ Eb) in E.
  unfold lift_result, bind at 1 in E. cbn [snd fst] in E.
  destruct (toJson (json_to_chars w) t) as [payload | e]; [|discriminate].
  destruct (publish_attempt_effects w topic payload m1)
    as [m2 [ts1 [ts2 [Ep [_ [_ [Hp2 [_ Hout2]]]]]]]].
  rewrite (bind_Ok _ _ _ _ _ Ep) in E.
  unfold bind, sleep_for, emit, ret in E. injection E as _ <-.
  cbn [outputs publish_calls]. rewrite Hout2, Hp2.
  assert (Hlogs : exists logs, outputs m1 = (outputs m ++ logs)%list
                               /\ Forall is_log_line logs).
  { destruct Hout as [Ho | [line Ho]].
    - exists []. rewrite Ho, app_nil_r. split; [reflexivity | constructor].
    - exists [Cout line]. split; [exact Ho|].
      constructor; [exact I | constructor]. }
  destruct Hlogs as [logs [Ho Hl]]. rewrite Ho.
  exists (logs ++
          (if is_connected w (is_connected_calls m1) then []
           else [Cerr ("[" ++ ts1
                         ++ "] Client not connected. Retrying connection by Paho...")]))%list,
         payload,
         (match publish_outcome w (publish_calls m1) with
          | Some what => [Cerr ("[" ++ ts2 ++ "] Error publishing: " ++ what)]
          | None => []
          end).
  split; [|split; [|split; [|rewrite Hp; reflexivity]]].
  - rewrite <- !app_assoc. reflexivity.
  - apply Forall_app. split; [exact Hl|].
    destruct (is_connected w (is_connected_calls m1));
      [constructor | constructor; [exact I | constructor]].
  - destruct (publish_outcome w (publish_calls m1));
      [constructor; [exact I | constructor] | constructor].
Qed.

(** X13: when the client reports that it is not connected, the iteration
    writes the "Client not connected" warning to the error stream and
    still makes the publish call right after it. *)
Theorem not_connected_warns_and_publishes (payload : string)
    (m : Machine G) :
  is_connected w (is_connected_calls m) = false ->
  exists m' ts post,
    publish_attempt w topic payload m = (Ok tt, m')
    /\ outputs m' =
         (outputs m ++
          [Cerr ("[" ++ ts
                   ++ "] Client not connected. Retrying connection by Paho...");
           MqttPublish topic payload QOS] ++ post)%list
    /\ Forall is_log_line post
    /\ publish_calls m' = S (publish_calls m).
Proof.
  intros Hc.
  destruct (publish_attempt_effects w topic payload m)
    as [m' [ts1 [ts2 [Ep [_ [_ [Hp [_ Hout]]]]]]]].
  rewrite Hc in Hout.
  exists m', ts1,
    (match publish_outcome w (publish_calls m) with
     | Some what => [Cerr ("[" ++ ts2 ++ "] Error publishing: " ++ what)]
     | None => []
     end).
  split; [exact Ep|]. split; [exact Hout|]. split; [|exact Hp].
  destruct (publish_outcome w (publish_calls m));
    [constructor; [exact I | constructor] | constructor].
Qed.

(** The three regime facts are kept by every case of the inclination
    logic. *)
Lemma TickCase_regime_invariant (s s' : Sim) (m m' : Machine G) :
  TickCase w s m s' m' -> regime_invariant s -> regime_invariant s'.
Proof.
  intros C Hs.
  assert (Hdur : 600 <= currentNonMealStateDurationSeconds s < 3600).
  { unfold regime_invariant in Hs. destruct (regime s); lia. }
  destruct C; try exact Hs; unfold regime_invariant, regime;
    cbn [inMealInclineOverride currentInclinationState currentInclination
         currentNonMealStateDurationSeconds BedInclinationState_eqb];
    unfold FLAT_STATE_BASE_DURATION_MINUTES,
      MINOR_INCLINATION_DURATION_BASE_MINUTES.
  - auto.
  - pose proof (flat_addon_range (gen m)). repeat split; lia.
  - pose proof (minor_addon_range (snd (probability_dist (gen m)))).
    repeat split; lia.
  - pose proof (flat_addon_range (snd (probability_dist (gen m)))).
    repeat split; lia.
  - pose proof (flat_addon_range (gen m)). repeat split; lia.
Qed.

Lemma loop_regime_invariant (n : nat) (s s' : Sim) (m m' : Machine G) :
  loop w n deviceInstanceNumStr clientId topic s m = (Ok s', m') ->
  regime_invariant s -> regime_invariant s'.
Proof.
  revert s m. induction n as [|n IH]; intros s m E Hs.
  - cbn in E. unfold ret in E. injection E as <- _. exact Hs.
  - cbn [loop] in E.
    destruct (loop_body_effects w deviceInstanceNumStr clientId topic s m)
      as [s1 [t [m1 [m0 [m2 [_ [C [_ [_ [_ [_ Hcase]]]]]]]]]]].
    destruct Hcase as [[payload [_ [Eb _]]] | [_ [Eb _]]];
      rewrite (bind_Ok _ _ _ _ _ Eb) in E || (unfold bind in E; rewrite Eb in E).
    + apply (IH s1 m2 E). exact (TickCase_regime_invariant s s1 _ m0 C Hs).
    + discriminate.
Qed.

(** X14: in a run of the program the simulation variables always fit the
    regime: under the meal override the bed is INCLINED at 60.0; outside
    it, a FLAT bed is at 0.0 with a dwell in [2700, 3600) seconds and an
    INCLINED bed is at 30.0 with a dwell in [600, 900) seconds.  So 60.0
    is reported exactly under the meal override and 30.0 exactly in the
    minor incline. *)
Theorem run_keeps_regime_invariant (n : nat) (s : Sim) (m m' : Machine G) :
  run w deviceInstanceNumStr clientId topic n m = (Ok s, m') ->
  regime_invariant s.
Proof.
  unfold run. destruct (simulation_start_eq w m) as [m0 [E0 _]].
  rewrite (bind_Ok _ _ _ _ _ E0). intros E.
  apply (loop_regime_invariant n _ s m0 m' E).
  unfold regime_invariant, regime.
  cbn [inMealInclineOverride currentInclinationState currentInclination
       currentNonMealStateDurationSeconds BedInclinationState_eqb].
  pose proof (flat_addon_range (gen m)).
  unfold FLAT_STATE_BASE_DURATION_MINUTES. repeat split; lia.
Qed.

End IterationShape.

Section DwellTimer.

Context {G : Type} {RE : RandomEngine G}.
Variable w : World G.
Variables deviceInstanceNumStr clientId topic : string.

Lemma simulation_start_clock (m : Machine G) :
  exists s m',
    simulation_start w m = (Ok s, m') /\ timer_is_past_reading w s m'.
Proof.
  unfold simulation_start, bind, ret, draw, steady_clock_now.
  cbn beta iota zeta delta [fst snd gen system_clock_reads
    steady_clock_reads is_connected_calls publish_calls outputs].
  eexists _, _. split; [reflexivity|].
  exists (steady_clock_reads m). cbn. split; [lia | reflexivity].
Qed.

Lemma loop_timer_is_past_reading (n : nat) (s s' : Sim) (m m' : Machine G) :
  loop w n deviceInstanceNumStr clientId topic s m = (Ok s', m') ->
  timer_is_past_reading w s m -> timer_is_past_reading w s' m'.
Proof.
  revert s m. induction n as [|n IH]; intros s m E Hs.
  - cbn in E. unfold ret in E. injection E as <- <-. exact Hs.
  - cbn [loop] in E.
    destruct (loop_body_effects w deviceInstanceNumStr clientId topic s m)
      as [s1 [t [m1 [m0 [m2 [_ [C [_ [_ [_ [_ Hcase]]]]]]]]]]].
    destruct Hcase as [[payload [_ [Eb [Hst _]]]] | [_ [Eb _]]].
    + rewrite (bind_Ok _ _ _ _ _ Eb) in E. apply (IH s1 m2 E).
      destruct Hs as [k [Hk Hlast]]. unfold timer_is_past_reading.
      rewrite Hst.
      destruct C; cbn [lastNonMealStateChangeTime];
        try (exists k; split; [lia | exact Hlast]);
        exists (steady_clock_reads m); (split; [lia | reflexivity]).
    + unfold bind in E. rewrite Eb in E. discriminate.
Qed.

(** X15: on a steady clock that never goes back, the dwell timer of a run
    never starts in the future: the instant the next iteration reads is at
    or after the last non-meal change, so the elapsed seconds compared at
    line 268 are never negative. *)
Theorem dwell_timer_never_ahead_of_clock (n : nat) (s : Sim)
    (m m' : Machine G) :
  steady_clock_monotone w ->
  run w deviceInstanceNumStr clientId topic n m = (Ok s, m') ->
  lastNonMealStateChangeTime s <= tick_steady_time w m'
  /\ 0 <= duration_cast_seconds
            (tick_steady_time w m' - lastNonMealStateChangeTime s).
Proof.
  intros Hmono. unfold run.
  destruct (simulation_start_clock m) as [s0 [m0 [E0 H0]]].
  rewrite (bind_Ok _ _ _ _ _ E0). intros E.
  destruct (loop_timer_is_past_reading n s0 s m0 m' E H0) as [k [Hk Hlast]].
  assert (Hle : lastNonMealStateChangeTime s
                <= tick_steady_time w m').
  { rewrite Hlast. unfold tick_steady_time. apply Hmono. lia. }
  split; [exact Hle|].
  unfold duration_cast_seconds, steady_ticks_per_second.
  apply Z.quot_pos; lia.
Qed.

(** X17: under the meal override the dwell timer is not consulted: with
    any other last-change time and dwell duration the inclination logic
    gives the same state, inclination and override flag and leaves the
    same machine; and when the override ends, the stored timer is
    discarded altogether. *)
Theorem override_ignores_dwell_timer (s : Sim) (m : Machine G)
    (last duration : Z) :
  inMealInclineOverride s = true ->
  exists s1 s2 m',
    inclination_logic w deviceInstanceNumStr s m = (Ok s1, m')
    /\ inclination_logic w deviceInstanceNumStr
         (with_dwell_timer last duration s) m = (Ok s2, m')
    /\ currentInclinationState s1 = currentInclinationState s2
    /\ currentInclination s1 = currentInclination s2
    /\ inMealInclineOverride s1 = inMealInclineOverride s2
    /\ (is_currently_meal_time_slot (tick_local_time w m) = false ->
        s1 = s2).
Proof.
  intros Hov. unfold tick_local_time.
  unfold inclination_logic, bind, ret, draw, getCurrentTimestampLocal,
    system_clock_localtime, steady_clock_now, cout, cerr, emit.
  cbn beta iota zeta delta [fst snd gen system_clock_reads
    steady_clock_reads is_connected_calls publish_calls outputs
    with_dwell_timer inMealInclineOverride lastNonMealStateChangeTime
    currentNonMealStateDurationSeconds].
  rewrite Hov.
  destruct (is_currently_meal_time_slot
              (system_clock_local w (system_clock_reads m))); cbn;
    eexists _, _, _; repeat split; try reflexivity; discriminate.
Qed.

End DwellTimer.

(** ** Further properties of the serialization *)

(** A plain character is copied as it is. *)
Lemma plain_char_escape (c : ascii) :
  plain_char c = true ->
  (N_of_ascii c <? 128)%N = true /\ escape_ascii c = String c EmptyString.
Proof.
  destruct c as [[] [] [] [] [] [] [] []]; intros H;
    try discriminate H; split; reflexivity.
Qed.

Lemma dump_escaped_plain (s : string) :
  plain_string s = true -> dump_escaped s = Some s.
Proof.
  induction s as [|c rest IH]; intros H; [reflexivity|].
  cbn [plain_string] in H. apply andb_true_iff in H. destruct H as [Hc Hr].
  destruct (plain_char_escape c Hc) as [Hlt Hesc].
  cbn [dump_escaped]. cbv zeta. rewrite Hlt, Hesc, (IH Hr). reflexivity.
Qed.

(** X16: when the device id, the timestamp and the state label consist
    of printable ASCII without quote and backslash, serialization succeeds
    and the payload carries the three strings verbatim between quotes. *)
Theorem toJson_plain_strings_verbatim (to_chars : float -> string)
    (t : Telemetry) :
  plain_string (deviceId t) = true ->
  plain_string (timestamp t) = true ->
  plain_string (bedState t) = true ->
  toJson to_chars t =
    Ok (payload_in_key_order to_chars t
          (deviceId t) (timestamp t) (bedState t)).
Proof.
  intros Hd Ht Hb.
  unfold toJson, dump, payload_in_key_order, structured_text.
  cbn [json_index_assign map_insert_or_assign]. cbn. unfold dump_quoted.
  rewrite (dump_escaped_plain _ Hd), (dump_escaped_plain _ Ht),
    (dump_escaped_plain _ Hb).
  reflexivity.
Qed.

(** ** The further properties at concrete inputs *)

(** The minor incline, over at 23:00. *)
Lemma minor_incline_ends_flat_witness :
  ~ in_meal_window (tick_local_time night_world night_machine)
  /\ duration_cast_seconds
       (tick_steady_time night_world night_machine
        - lastNonMealStateChangeTime example_minor)
     >= currentNonMealStateDurationSeconds example_minor
  /\ exists s' m',
       inclination_logic night_world "1" example_minor night_machine
         = (Ok s', m')
       /\ currentInclinationState s' = FLAT
       /\ currentInclination s' = 0%float
       /\ 2700 <= currentNonMealStateDurationSeconds s' < 3600.
Proof.
  assert (H : ~ in_meal_window (tick_local_time night_world night_machine)).
  { intros H. apply is_currently_meal_time_slot_spec in H.
    vm_compute in H. discriminate. }
  assert (Hel : duration_cast_seconds
                  (tick_steady_time night_world night_machine
                   - lastNonMealStateChangeTime example_minor)
                >= currentNonMealStateDurationSeconds example_minor).
  { vm_compute. discriminate. }
  split; [exact H|]. split; [exact Hel|].
  destruct (minor_incline_ends_flat night_world "1" example_minor
              night_machine H eq_refl eq_refl Hel)
    as [s' [m' [ts [E [Hs [Hi [_ [Hd _]]]]]]]].
  exists s', m'. auto.
Defined.

(** The first iteration at 23:00, the dwell just started. *)
Lemma unexpired_dwell_changes_nothing_witness :
  ~ in_meal_window (tick_local_time night_world (boot night_world))
  /\ duration_cast_seconds
       (tick_steady_time night_world (boot night_world)
        - lastNonMealStateChangeTime example_flat)
     < currentNonMealStateDurationSeconds example_flat
  /\ exists m',
       inclination_logic night_world "1" example_flat (boot night_world)
         = (Ok example_flat, m')
       /\ gen m' = gen (boot night_world).
Proof.
  assert (H : ~ in_meal_window (tick_local_time night_world
                                  (boot night_world))).
  { intros H. apply is_currently_meal_time_slot_spec in H.
    vm_compute in H. discriminate. }
  assert (Hel : duration_cast_seconds
                  (tick_steady_time night_world (boot night_world)
                   - lastNonMealStateChangeTime example_flat)
                < currentNonMealStateDurationSeconds example_flat).
  { vm_compute. reflexivity. }
  split; [exact H|]. split; [exact Hel|].
  destruct (unexpired_dwell_changes_nothing night_world "1" example_flat
              (boot night_world) H eq_refl Hel) as [m' [E [Hg _]]].
  exists m'. auto.
Defined.

(** Breakfast goes on at 08:05. *)
Lemma meal_override_is_idempotent_witness :
  in_meal_window (tick_local_time breakfast_time_world
                    (boot breakfast_time_world))
  /\ exists m',
       inclination_logic breakfast_time_world "1" example_in_meal
         (boot breakfast_time_world) = (Ok example_in_meal, m')
       /\ outputs m' = [].
Proof.
  assert (H : in_meal_window (tick_local_time breakfast_time_world
                                (boot breakfast_time_world))).
  { exists (8, 0). vm_compute. intuition discriminate. }
  split; [exact H|].
  destruct (meal_override_is_idempotent breakfast_time_world "1"
              example_in_meal (boot breakfast_time_world) H eq_refl eq_refl
              eq_refl) as [m' [E [_ Ho]]].
  exists m'. auto.
Defined.

(** 3000 s on the clock against a dwell of 2700 s. *)
Lemma dwell_expires_after_whole_seconds_witness :
  0 < currentNonMealStateDurationSeconds example_flat
  /\ (dwell_expired night_world example_flat night_machine = true <->
      2700 * 1000000000 <= 3000000000000 - 0).
Proof.
  assert (H : 0 < currentNonMealStateDurationSeconds example_flat)
    by (simpl; lia).
  split; [exact H|].
  exact (dwell_expires_after_whole_seconds night_world example_flat
           night_machine H).
Defined.

(** 08:29 is in the breakfast window. *)
Lemma meal_windows_are_three_half_hours_witness :
  0 <= tm_min (example_tm 8 29) <= 59
  /\ is_currently_meal_time_slot (example_tm 8 29) = true.
Proof.
  assert (H : 0 <= tm_min (example_tm 8 29) <= 59) by (simpl; lia).
  split; [exact H|].
  apply (proj2 (meal_windows_are_three_half_hours (example_tm 8 29) H)).
  simpl. split; [left; reflexivity | lia].
Defined.

(** Started with the program name alone. *)
Lemma missing_argument_exits_with_1_witness :
  List.length ["patientbedsimulation"] = 1%nat
  /\ fst (main refused_world 3 ["patientbedsimulation"] (boot refused_world))
     = Ok (Some 1).
Proof.
  assert (H : List.length ["patientbedsimulation"] = 1%nat)
    by reflexivity.
  split; [exact H|].
  rewrite (missing_argument_exits_with_1 refused_world 3
             ["patientbedsimulation"] (boot refused_world) H).
  reflexivity.
Defined.

(** Three iterations against the broker that fails the first publish. *)
Lemma main_does_not_return_once_connected_witness :
  (2 <= List.length ["patientbedsimulation"; "1"])%nat
  /\ connect_outcome flaky_world = None
  /\ (fst (main flaky_world 3 ["patientbedsimulation"; "1"]
             (boot flaky_world)) = Ok None
      \/ fst (main flaky_world 3 ["patientbedsimulation"; "1"]
                (boot flaky_world)) = Throw (json_type_error 316)).
Proof.
  assert (H : (2 <= List.length ["patientbedsimulation"; "1"])%nat)
    by (simpl; lia).
  split; [exact H|]. split; [reflexivity|].
  exact (main_does_not_return_once_connected flaky_world 3
           ["patientbedsimulation"; "1"] (boot flaky_world) H eq_refl).
Defined.

Lemma main_trace_once_connected_witness :
  (2 <= List.length ["patientbedsimulation"; "1"])%nat
  /\ connect_outcome flaky_world = None
  /\ exists delta,
       List.length (outputs (snd (main flaky_world 3
                                    ["patientbedsimulation"; "1"]
                                    (boot flaky_world))))
       = (4 + List.length delta)%nat
       /\ Forall (loop_output example_to_chars "PatientBed1"
                    "PatientBed/1/data") delta.
Proof.
  assert (H : (2 <= List.length ["patientbedsimulation"; "1"])%nat)
    by (simpl; lia).
  split; [exact H|]. split; [reflexivity|].
  destruct (main_trace_once_connected flaky_world 3
              ["patientbedsimulation"; "1"] (boot flaky_world) H eq_refl)
    as [ts0 [ts1 [ts2 [delta [E HF]]]]].
  exists delta. split; [|exact HF].
  rewrite E. cbn [outputs boot app List.length Nat.add]. reflexivity.
Defined.

Lemma main_loops_forever_witness :
  (2 <= List.length ["patientbedsimulation"; "1"])%nat
  /\ connect_outcome flaky_world = None
  /\ dump_escaped (CLIENT_ID_PREFIX ++ "1") <> None
  /\ (forall t : tm, dump_escaped (strftime_iso8601 flaky_world t) <> None)
  /\ fst (main flaky_world 3 ["patientbedsimulation"; "1"]
            (boot flaky_world)) = Ok None
  /\ publish_calls (snd (main flaky_world 3 ["patientbedsimulation"; "1"]
                           (boot flaky_world))) = 3%nat.
Proof.
  assert (H : (2 <= List.length ["patientbedsimulation"; "1"])%nat)
    by (simpl; lia).
  assert (Hid : dump_escaped (CLIENT_ID_PREFIX ++ "1") <> None)
    by (vm_compute; discriminate).
  assert (Hts : forall t : tm,
             dump_escaped (strftime_iso8601 flaky_world t) <> None)
    by (intros t; vm_compute; discriminate).
  split; [exact H|]. split; [reflexivity|]. split; [exact Hid|].
  split; [exact Hts|].
  exact (main_loops_forever flaky_world 3 ["patientbedsimulation"; "1"]
           (boot flaky_world) H eq_refl Hid Hts).
Defined.

(** The iteration whose publish fails still ends with its sleep. *)
Lemma iteration_publishes_then_sleeps_witness :
  exists s' m',
    loop_body flaky_world "1" "PatientBed1" "PatientBed/1/data" example_flat
      (boot flaky_world) = (Ok s', m')
    /\ publish_calls m' = 1%nat
    /\ exists pre payload post,
         outputs m' =
           (pre ++ [MqttPublish "PatientBed/1/data" payload QOS] ++ post
            ++ [SleepFor DATA_SEND_INTERVAL_SECONDS])%list.
Proof.
  eexists _, _. split; [vm_compute; reflexivity|].
  destruct (iteration_publishes_then_sleeps flaky_world "1" "PatientBed1"
              "PatientBed/1/data" example_flat _ (boot flaky_world) _
              ltac:(vm_compute; reflexivity))
    as [pre [payload [post [E [_ [_ Hp]]]]]].
  split; [exact Hp|]. exists pre, payload, post. exact E.
Defined.

(** A publish while the client says it is not connected. *)
Lemma not_connected_warns_and_publishes_witness :
  is_connected offline_world (is_connected_calls (boot offline_world)) = false
  /\ exists m',
       publish_attempt offline_world "PatientBed/1/data" "{}"
         (boot offline_world) = (Ok tt, m')
       /\ publish_calls m' = 1%nat.
Proof.
  split; [reflexivity|].
  destruct (not_connected_warns_and_publishes offline_world
              "PatientBed/1/data" "{}" (boot offline_world) eq_refl)
    as [m' [ts [post [E [_ [_ Hp]]]]]].
  exists m'. split; [exact E | exact Hp].
Defined.

(** After the first iteration of the breakfast run. *)
Lemma run_keeps_regime_invariant_witness :
  exists s m',
    run breakfast_world "1" "PatientBed1" "PatientBed/1/data" 1
      (boot breakfast_world) = (Ok s, m')
    /\ regime s = MealInclined
    /\ regime_invariant s.
Proof.
  eexists _, _. split; [vm_compute; reflexivity|]. split; [reflexivity|].
  refine (run_keeps_regime_invariant breakfast_world "1" "PatientBed1"
            "PatientBed/1/data" 1 _ (boot breakfast_world) _ _).
  vm_compute; reflexivity.
Defined.

Lemma dwell_timer_never_ahead_of_clock_witness :
  steady_clock_monotone breakfast_world
  /\ exists s m',
       run breakfast_world "1" "PatientBed1" "PatientBed/1/data" 2
         (boot breakfast_world) = (Ok s, m')
       /\ lastNonMealStateChangeTime s <= tick_steady_time breakfast_world m'.
Proof.
  assert (Hmono : steady_clock_monotone breakfast_world).
  { intros i j Hij. cbn [steady_clock breakfast_world example_world]. lia. }
  split; [exact Hmono|].
  eexists _, _. split; [vm_compute; reflexivity|].
  refine (proj1 (dwell_timer_never_ahead_of_clock breakfast_world "1"
                   "PatientBed1" "PatientBed/1/data" 2 _
                   (boot breakfast_world) _ Hmono _)).
  vm_compute; reflexivity.
Defined.

Lemma toJson_plain_strings_verbatim_witness :
  plain_string (deviceId example_sample) = true
  /\ plain_string (timestamp example_sample) = true
  /\ plain_string (bedState example_sample) = true
  /\ toJson example_to_chars example_sample =
       Ok (payload_in_key_order example_to_chars example_sample
             "PatientBed1" "2025-01-01T00:00:00+0000" "INCLINED").
Proof.
  split; [reflexivity|]. split; [reflexivity|]. split; [reflexivity|].
  exact (toJson_plain_strings_verbatim example_to_chars example_sample
           eq_refl eq_refl eq_refl).
Defined.

(** Leaving the override at 08:30 with two different stored timers. *)
Lemma override_ignores_dwell_timer_witness :
  inMealInclineOverride example_in_meal = true
  /\ exists s1 m',
       inclination_logic after_breakfast_world "1" example_in_meal
         (boot after_breakfast_world) = (Ok s1, m')
       /\ inclination_logic after_breakfast_world "1"
            (with_dwell_timer 77 600 example_in_meal)
            (boot after_breakfast_world) = (Ok s1, m').
Proof.
  split; [reflexivity|].
  destruct (override_ignores_dwell_timer after_breakfast_world "1"
              example_in_meal (boot after_breakfast_world) 77 600 eq_refl)
    as [s1 [s2 [m' [E1 [E2 [_ [_ [_ Heq]]]]]]]].
  exists s1, m'. split; [exact E1|].
  rewrite (Heq ltac:(vm_compute; reflexivity)). exact E2.
Defined.

(** ** The payload read back *)























